(** * MISP galaxy JSON to STIX bundle converter: model and verification

    A shallow embedding of [misptostix.py] (class [MISPToSTIXConverter]).

    The converter reads a JSON document, walks the records under its
    ["values"] key, builds one threat actor per usable record and one
    relationship per usable entry of the record's ["related"] list, and
    writes the collected objects as a bundle.

    The embedding has three layers:
    - the values [json.load] produces and the Python operations the
      converter applies to them ([in], [x[k]], [x.get], [int], [list],
      truthiness, string formatting), each with the exceptions it raises;
    - the two [stix2] constructors, the serializer and [uuid.uuid4], which
      are not part of the converter: what the converter relies on is
      written out, the rest is taken as parameters (type classes);
    - the converter's own methods, written in an exception monad
      ([result]) and, where files or fresh identifiers are involved, in a
      state-and-exception monad ([IO]).

    Logging is observability only and is left out, with one exception: the
    argument of the log call in the [except] branch of
    [create_threat_actor] is evaluated, because evaluating it can raise. *)

From Stdlib Require Import ZArith Ascii String List Bool Lia.
From Stdlib Require Import Floats.SpecFloat.
From stdpp Require Import base option list strings gmap pretty.

Local Open Scope string_scope.
Local Open Scope Z_scope.
Local Open Scope list_scope.

(** ** Values produced by [json.load] *)

(** [JFloat] carries an IEEE 754 datum ([json.load] also accepts [NaN] and
    [Infinity]); [JInt] is an unbounded Python [int].  A [str] is held as
    the bytes of its UTF-8 encoding (a lone surrogate as its three
    bytes).  [JObj] is a Python [dict] in
    insertion order: the parser keeps one binding per key, and [assoc]
    reads the first binding of a key. *)
#[local] Set Warnings "-register-all".
Inductive json : Type :=
  | JNull
  | JBool (b : bool)
  | JInt (z : Z)
  | JFloat (f : spec_float)
  | JStr (s : string)
  | JArr (l : list json)
  | JObj (kvs : list (string * json)).

Fixpoint assoc (k : string) (kvs : list (string * json)) : option json :=
  match kvs with
  | [] => None
  | (k', v) :: rest => if String.eqb k k' then Some v else assoc k rest
  end.

(** ** Exceptions *)

Inductive exn : Type :=
  | TypeError
  | ValueError
  | KeyError
  | AttributeError
  | OverflowError
  | IOError
  | JSONDecodeError
  | UnicodeDecodeError
  | RecursionError
  | StixError.

Inductive result (A : Type) : Type :=
  | Ok (a : A)
  | Raise (e : exn).
Arguments Ok {A} a.
Arguments Raise {A} e.

#[global] Instance result_ret : MRet result := λ A a, Ok a.
#[global] Instance result_bind : MBind result := λ A B f m,
  match m with
  | Ok a => f a
  | Raise e => Raise e
  end.

(** [try: m except Exception: h] *)
Definition try_except {A} (m : result A) (h : exn → result A) : result A :=
  match m with
  | Ok a => Ok a
  | Raise e => h e
  end.

(** ** Python operations on JSON values *)

Module Py.

(** What the interpreter decides and this file does not compute: [repr]
    of a [float] and of a [str], [int] of a [str] that holds a character
    outside ASCII (a digit or a space of another script), and the limit
    on the number of digits [int] reads from a [str] ([None] when the
    interpreter has none). *)
Class Interpreter := {
  repr_float : spec_float → string;
  repr_str : string → string;
  int_non_ascii : string → result Z;
  int_max_str_digits : option nat
}.

(** [needle in hay] for two [str]: substring test. *)
Fixpoint substring_of (needle hay : string) : bool :=
  String.prefix needle hay ||
  match hay with
  | EmptyString => false
  | String _ rest => substring_of needle rest
  end.

Definition is_str (k : string) (v : json) : bool :=
  match v with
  | JStr s => String.eqb s k
  | _ => false
  end.

(** [key in x], [key] a [str]. *)
Definition contains (key : string) (x : json) : result bool :=
  match x with
  | JObj kvs => Ok (if assoc key kvs is Some _ then true else false)
  | JArr l => Ok (existsb (is_str key) l)
  | JStr s => Ok (substring_of key s)
  | JNull | JBool _ | JInt _ | JFloat _ => Raise TypeError
  end.

(** [all(key in x for key in keys)]: stops at the first [False]. *)
Fixpoint all_in (keys : list string) (x : json) : result bool :=
  match keys with
  | [] => Ok true
  | key :: rest =>
      b ← contains key x;
      if b : bool then all_in rest x else Ok false
  end.

(** [x[key]], [key] a [str]. *)
Definition getitem (x : json) (key : string) : result json :=
  match x with
  | JObj kvs =>
      match assoc key kvs with
      | Some v => Ok v
      | None => Raise KeyError
      end
  | _ => Raise TypeError
  end.

(** [x.get(key, default)]: only a [dict] has the method. *)
Definition get (x : json) (key : string) (dflt : json) : result json :=
  match x with
  | JObj kvs => Ok (default dflt (assoc key kvs))
  | _ => Raise AttributeError
  end.

(** Truth value of [x] in [if x:]. *)
Definition truthy (x : json) : bool :=
  match x with
  | JNull => false
  | JBool b => b
  | JInt z => negb (z =? 0)
  | JFloat (S754_zero _) => false
  | JFloat _ => true
  | JStr s => negb (String.eqb s "")
  | JArr l => if l is [] then false else true
  | JObj kvs => if kvs is [] then false else true
  end.

Definition is_continuation (c : ascii) : bool :=
  let n := nat_of_ascii c in ((128 <=? n) && (n <? 192))%nat.

(** The characters of a [str]: each byte that is no continuation byte
    opens a character and takes the continuation bytes after it. *)
Fixpoint characters (cs : list ascii) : list (list ascii) :=
  match cs with
  | [] => []
  | c :: rest =>
      match characters rest with
      | (d :: ds) :: more =>
          if is_continuation d then (c :: d :: ds) :: more
          else [c] :: (d :: ds) :: more
      | more => [c] :: more
      end
  end.

(** The items a [for] loop or [list(x)] takes from [x]: the elements of
    a list, the keys of a dict, the characters of a string. *)
Definition iter (x : json) : result (list json) :=
  match x with
  | JArr l => Ok l
  | JObj kvs => Ok (map (λ kv, JStr kv.1) kvs)
  | JStr s =>
      Ok (map (λ c, JStr (string_of_list_ascii c))
              (characters (list_ascii_of_string s)))
  | JNull | JBool _ | JInt _ | JFloat _ => Raise TypeError
  end.

(** *** [int(x)] *)

(** The ASCII characters [int] strips from both ends of a [str]. *)
Definition is_space (c : ascii) : bool :=
  let n := nat_of_ascii c in
  ((9 <=? n) && (n <=? 13) || (n =? 32))%nat.

Definition digit_of (c : ascii) : option Z :=
  let n := nat_of_ascii c in
  if ((48 <=? n) && (n <=? 57))%nat then Some (Z.of_nat n - 48) else None.

(** Decimal digits with single underscores between digits;
    [after_digit] tells whether the previous character was a digit, and
    [count] is the number of digits read.  The result is the value and
    the number of digits. *)
Fixpoint int_digits (cs : list ascii) (acc : Z) (count : nat)
    (after_digit : bool) : option (Z * nat) :=
  match cs with
  | [] => if after_digit then Some (acc, count) else None
  | c :: rest =>
      match digit_of c with
      | Some d => int_digits rest (10 * acc + d) (S count) true
      | None =>
          if Ascii.eqb c "_" && after_digit
          then int_digits rest acc count false
          else None
      end
  end.

Definition strip (cs : list ascii) : list ascii :=
  let drop := fix drop (l : list ascii) :=
    match l with
    | c :: rest => if is_space c then drop rest else l
    | [] => []
    end in
  rev (drop (rev (drop cs))).

Definition is_ascii (c : ascii) : bool := (nat_of_ascii c <? 128)%nat.

Section Int.
Context `{Interpreter}.

(** [int(s)] for a [str], base 10. *)
Definition int_of_str (s : string) : result Z :=
  let cs := list_ascii_of_string s in
  if forallb is_ascii cs then
    let '(negative, body) :=
      match strip cs with
      | "-"%char :: rest => (true, rest)
      | "+"%char :: rest => (false, rest)
      | rest => (false, rest)
      end in
    match int_digits body 0 0 false with
    | Some (z, count) =>
        match int_max_str_digits with
        | Some limit =>
            if (limit <? count)%nat then Raise ValueError
            else Ok (if negative then - z else z)
        | None => Ok (if negative then - z else z)
        end
    | None => Raise ValueError
    end
  else int_non_ascii s.

(** [int(f)] for a [float]: truncation towards zero. *)
Definition int_of_float (f : spec_float) : result Z :=
  match f with
  | S754_zero _ => Ok 0
  | S754_infinity _ => Raise OverflowError
  | S754_nan => Raise ValueError
  | S754_finite s m e =>
      let a := if 0 <=? e then Z.pos m * 2 ^ e else Z.pos m / 2 ^ (- e) in
      Ok (if s then - a else a)
  end.

Definition int (x : json) : result Z :=
  match x with
  | JInt z => Ok z
  | JBool b => Ok (if b then 1 else 0)
  | JFloat f => int_of_float f
  | JStr s => int_of_str s
  | JNull | JArr _ | JObj _ => Raise TypeError
  end.

End Int.

(** *** String formatting *)

(** Every case of [str(x)] other than a [float], and a [str] inside a
    list or a dict, is written out. *)
Section Format.
Context `{Interpreter}.

Definition join (sep : string) (parts : list string) : string :=
  match parts with
  | [] => ""
  | p :: ps => fold_left (λ acc q, acc +:+ sep +:+ q) ps p
  end.

Fixpoint repr (x : json) : string :=
  match x with
  | JNull => "None"
  | JBool b => if b then "True" else "False"
  | JInt z => pretty z
  | JFloat f => repr_float f
  | JStr s => repr_str s
  | JArr l => "[" +:+ join ", " (map repr l) +:+ "]"
  | JObj kvs =>
      "{" +:+
      join ", " (map (λ kv, repr_str kv.1 +:+ ": " +:+ repr kv.2) kvs)
      +:+ "}"
  end.

(** [str(x)], the text an f-string substitutes for [{x}]. *)
Definition str (x : json) : string :=
  match x with
  | JStr s => s
  | _ => repr x
  end.
End Format.

End Py.

(** ** The [stix2] objects and the collaborators outside the converter *)

Record ExternalReference := {
  source_name : string;
  url : string
}.

(** The keyword arguments [create_threat_actor] passes to
    [stix2.ThreatActor]: [name], [description] and the aliases are handed
    over as read from the record, whatever their JSON type. *)
Record ThreatActorArgs := {
  arg_id : string;
  arg_name : json;
  arg_description : json;
  arg_aliases : list json;
  arg_labels : list string;
  arg_external_references : list ExternalReference;
  arg_confidence : Z
}.

(** The properties of a built actor that come from these arguments.  A
    property the library leaves out reads [None] here, or [[]] for a
    list.  The properties the library adds on its own ([type],
    [spec_version], [created], [modified]) are not fields: they show in
    the object's JSON only, which is the serializer's. *)
Record ThreatActor := {
  ta_id : string;
  ta_name : string;
  ta_description : option string;
  ta_aliases : list string;
  ta_labels : list string;
  ta_external_references : list ExternalReference;
  ta_confidence : Z
}.

(** The arguments of [stix2.Relationship] are strings and an integer,
    which the built object holds as given. *)
Record Relationship := {
  rel_id : string;
  relationship_type : string;
  source_ref : string;
  target_ref : string;
  rel_description : string;
  rel_confidence : Z
}.

Inductive STIXObject : Type :=
  | SDO (a : ThreatActor)
  | SRO (r : Relationship).

(** The library during one run.  The first two fields are the schema
    checks of the constructors, which raise on the arguments they
    reject; which arguments these are is the library's business.
    [serialize i o] is [json.loads(o.serialize())] for the [i]-th object
    of the run's bundle: the JSON holds the timestamps the library
    stamped on that object when it built it, so it is not determined by
    [o] alone, and another run is another instance. *)
Class Stix2 := {
  ThreatActor_accepts : ThreatActorArgs → bool;
  Relationship_accepts : Relationship → bool;
  serialize : nat → STIXObject → json
}.

(** [str(uuid.uuid4())] at the n-th draw of a run. *)
Class Uuid4 := { uuid4_at : nat → string }.

Module stix2.
Section Constructors.
Context `{Py.Interpreter} `{Stix2}.

(** A constructor first forgets every argument that is [None] or [[]]. *)
Definition dropped (value : json) : bool :=
  match value with
  | JNull | JArr [] => true
  | _ => false
  end.

(** A string property holds [str(value)]. *)
Definition string_property (value : json) : option string :=
  if dropped value then None else Some (Py.str value).

(** [name] is required: the constructor raises when it was dropped.
    The string properties are turned into [str], the items of a list of
    strings too. *)
Definition ThreatActor (kw : ThreatActorArgs) : result ThreatActor :=
  match string_property (arg_name kw) with
  | None => Raise StixError
  | Some name =>
      if ThreatActor_accepts kw then
        Ok {| ta_id := arg_id kw;
              ta_name := name;
              ta_description := string_property (arg_description kw);
              ta_aliases := Py.str <$> arg_aliases kw;
              ta_labels := arg_labels kw;
              ta_external_references := arg_external_references kw;
              ta_confidence := arg_confidence kw |}
      else Raise StixError
  end.

Definition Relationship (kw : Relationship) : result Relationship :=
  if Relationship_accepts kw then Ok kw else Raise StixError.
End Constructors.
End stix2.

(** ** Files and fresh identifiers *)

(** A file either holds a JSON text, given by the value [json.load]
    reads from it, or something on which reading and parsing raise: the
    [JSONDecodeError] of a text that is no JSON, the [UnicodeDecodeError]
    of bytes that are no UTF-8, the [ValueError] of a number with too
    many digits, the [RecursionError] of a nesting too deep. *)
Inductive FileData : Type :=
  | Unparsable (e : exn)
  | Document (j : json).

(** [files]: what each path holds; [locked]: paths [open(path, "w")]
    fails on; [draws]: how many identifiers [uuid4] has handed out. *)
Record World := {
  files : gmap string FileData;
  locked : gset string;
  draws : nat
}.

Definition IO (A : Type) : Type := World → result A * World.

#[global] Instance IO_ret : MRet IO := λ A a w, (Ok a, w).
#[global] Instance IO_bind : MBind IO := λ A B f m w,
  match m w with
  | (Ok a, w') => f a w'
  | (Raise e, w') => (Raise e, w')
  end.

Definition lift {A} (r : result A) : IO A := λ w, (r, w).

Definition raise {A} (e : exn) : IO A := lift (Raise e).

(** [try: m except Exception: h]; what [m] did to the world before it
    raised stays done. *)
Definition io_try {A} (m : IO A) (h : exn → IO A) : IO A := λ w,
  match m w with
  | (Ok a, w') => (Ok a, w')
  | (Raise e, w') => h e w'
  end.

Definition uuid4 `{Uuid4} : IO string := λ w,
  (Ok (uuid4_at (draws w)),
   {| files := files w; locked := locked w; draws := S (draws w) |}).

(** [with open(path, "r") as file: json.load(file)] *)
Definition read_json (path : string) : IO json := λ w,
  match files w !! path with
  | None => (Raise IOError, w)
  | Some (Unparsable e) => (Raise e, w)
  | Some (Document j) => (Ok j, w)
  end.

(** [with open(path, "w") as file: json.dump(data, file)] *)
Definition write_json (path : string) (data : json) : IO unit := λ w,
  if bool_decide (path ∈ locked w) then (Raise IOError, w)
  else (Ok (),
        {| files := <[path := Document data]> (files w);
           locked := locked w; draws := draws w |}).

(** ** The converter *)

Section MISPToSTIXConverter.
Context `{Py.Interpreter} `{Stix2} `{Uuid4}.

(** [self.input_file], [self.output_file] *)
Variables (input_file output_file : string).

Definition load_misp_data : IO json :=
  misp_data ← read_json input_file;
  match misp_data with
  | JObj kvs =>
      if assoc "values" kvs is Some _ then mret misp_data
      else raise ValueError
  | _ => raise ValueError
  end.

Definition _sanitize_list (value : json) : result (list json) :=
  match value with
  | JNull => Ok []
  | JStr _ => Ok [value]
  | _ => Py.iter value
  end.

(** The [try] block of [create_threat_actor] up to the call of the
    constructor: the check of the keys, and the arguments of the call in
    the order they are evaluated. *)
Definition threat_actor_args (item : json) : result (option ThreatActorArgs) :=
  valid ← Py.all_in ["uuid"; "value"] item;
  if negb valid then Ok None
  else
    uuid ← Py.getitem item "uuid";
    let actor_id := "threat-actor--" +:+ Py.str uuid in
    meta ← Py.get item "meta" (JObj []);
    synonyms ← Py.get meta "synonyms" JNull ≫= _sanitize_list;
    refs ← Py.get meta "refs" JNull ≫= _sanitize_list;
    country ← Py.get meta "country" JNull;
    labels_country ←
      (if Py.truthy country
       then c ← Py.getitem meta "country"; Ok ["Country: " +:+ Py.str c]
       else Ok []);
    sector ← Py.get meta "targeted-sector" JNull;
    labels ←
      (if Py.truthy sector
       then t ← Py.getitem meta "targeted-sector";
            Ok (labels_country ++ ["Targeted Sector: " +:+ Py.str t])
       else Ok labels_country);
    let external_references :=
      omap (λ ref, if ref is JStr u
                   then Some {| source_name := "MISP"; url := u |}
                   else None) refs in
    name ← Py.getitem item "value";
    description ← Py.get item "description" (JStr "No description available.");
    confidence ← Py.get meta "attribution-confidence" (JInt 50) ≫= Py.int;
    Ok (Some {| arg_id := actor_id;
                arg_name := name;
                arg_description := description;
                arg_aliases := synonyms;
                arg_labels := labels;
                arg_external_references := external_references;
                arg_confidence := confidence |}).

(** The [try] block of [create_threat_actor]. *)
Definition threat_actor_of (item : json) : result (option ThreatActor) :=
  args ← threat_actor_args item;
  match args with
  | None => Ok None
  | Some kw => threat_actor ← stix2.ThreatActor kw; Ok (Some threat_actor)
  end.

(** The [except] branch formats [item.get('value', 'Unknown')] into its
    log line before it returns [None]. *)
Definition create_threat_actor (item : json) : result (option ThreatActor) :=
  try_except (threat_actor_of item)
    (λ _, _ ← Py.get item "value" (JStr "Unknown"); Ok None).

(** One turn of the loop of [create_relationships], from the list built
    so far to the list after the turn. *)
Definition relationship_turn (source_actor_id : string) (relation : json)
    (relationships : list Relationship) : IO (list Relationship) :=
  io_try
    (valid ← lift (Py.all_in ["dest-uuid"; "type"] relation);
     if negb valid then mret relationships
     else
       fresh ← uuid4;
       dest ← lift (Py.getitem relation "dest-uuid");
       kind ← lift (Py.getitem relation "type");
       relationship ← lift (stix2.Relationship
         {| rel_id := "relationship--" +:+ fresh;
            relationship_type := "related-to";
            source_ref := source_actor_id;
            target_ref := "threat-actor--" +:+ Py.str dest;
            rel_description := "Relationship type: " +:+ Py.str kind;
            rel_confidence := 80 |});
       mret (relationships ++ [relationship]))
    (λ _, mret relationships).

Fixpoint relationships_loop (source_actor_id : string) (items : list json)
    (relationships : list Relationship) : IO (list Relationship) :=
  match items with
  | [] => mret relationships
  | relation :: rest =>
      relationships' ← relationship_turn source_actor_id relation relationships;
      relationships_loop source_actor_id rest relationships'
  end.

Definition create_relationships (source_actor_id : string)
    (related_items : json) : IO (list Relationship) :=
  items ← lift (Py.iter related_items);
  relationships_loop source_actor_id items [].

(** One turn of the loop of [convert], from [stix_objects] before the
    turn to [stix_objects] after it.  A [stix2] object is a non-empty
    mapping, so [if threat_actor:] tests for [None]. *)
Definition convert_turn (item : json) (stix_objects : list STIXObject)
    : IO (list STIXObject) :=
  threat_actor ← lift (create_threat_actor item);
  match threat_actor with
  | None => mret stix_objects
  | Some actor =>
      let stix_objects := stix_objects ++ [SDO actor] in
      related ← lift (Py.get item "related" JNull);
      if Py.truthy related then
        related_items ← lift (Py.getitem item "related");
        relationships ← create_relationships (ta_id actor) related_items;
        mret (stix_objects ++ map SRO relationships)
      else mret stix_objects
  end.

Fixpoint convert_loop (items : list json) (stix_objects : list STIXObject)
    : IO (list STIXObject) :=
  match items with
  | [] => mret stix_objects
  | item :: rest =>
      stix_objects' ← convert_turn item stix_objects;
      convert_loop rest stix_objects'
  end.

Definition stix_bundle_data (fresh : string) (stix_objects : list STIXObject)
    : json :=
  JObj [("type", JStr "bundle");
        ("id", JStr ("bundle--" +:+ fresh));
        ("spec_version", JStr "2.0");
        ("objects", JArr (imap serialize stix_objects))].

(** The outer [except] of [convert] logs and re-raises. *)
Definition convert : IO unit :=
  io_try
    (misp_data ← load_misp_data;
     values ← lift (Py.get misp_data "values" (JArr []));
     items ← lift (Py.iter values);
     stix_objects ← convert_loop items [];
     if stix_objects is [] then raise ValueError
     else
       fresh ← uuid4;
       write_json output_file (stix_bundle_data fresh stix_objects))
    (λ e, raise e).

End MISPToSTIXConverter.

(** [main()]: the converter on its two fixed paths. *)
Definition main `{Py.Interpreter} `{Stix2} `{Uuid4} : IO unit :=
  convert "misp_data.json" "stix_output_2_0.json".

(** ** A concrete environment for running the converter *)

Module Fixture.

(** [repr] of a string of printable characters without quotes or
    backslashes; floats and characters outside ASCII do not occur in the
    documents below.  The limit on digits is the interpreter's default. *)
#[export] Instance interpreter : Py.Interpreter := {|
  Py.repr_float := λ _, "nan";
  Py.repr_str := λ s, "'" +:+ s +:+ "'";
  Py.int_non_ascii := λ _, Raise ValueError;
  Py.int_max_str_digits := Some 4300%nat
|}.

Definition dump_strings (l : list string) : json := JArr (map JStr l).

(** The JSON of an actor: a property the object lacks has no key. *)
Definition dump_actor (stamp : list (string * json)) (a : ThreatActor) : json :=
  JObj ([("type", JStr "threat-actor"); ("id", JStr (ta_id a))] ++ stamp ++
        [("name", JStr (ta_name a))] ++
        (if ta_description a is Some d then [("description", JStr d)] else []) ++
        (if ta_aliases a is [] then []
         else [("aliases", dump_strings (ta_aliases a))]) ++
        (if ta_labels a is [] then []
         else [("labels", dump_strings (ta_labels a))]) ++
        (if ta_external_references a is [] then []
         else [("external_references",
                JArr (map (λ e, JObj [("source_name", JStr (source_name e));
                                      ("url", JStr (url e))])
                          (ta_external_references a)))]) ++
        [("confidence", JInt (ta_confidence a))]).

Definition dump_relationship (stamp : list (string * json))
    (r : Relationship) : json :=
  JObj ([("type", JStr "relationship"); ("id", JStr (rel_id r))] ++ stamp ++
        [("relationship_type", JStr (relationship_type r));
         ("source_ref", JStr (source_ref r));
         ("target_ref", JStr (target_ref r));
         ("description", JStr (rel_description r));
         ("confidence", JInt (rel_confidence r))]).

Definition dump (stamp : list (string * json)) (o : STIXObject) : json :=
  match o with
  | SDO a => dump_actor stamp a
  | SRO r => dump_relationship stamp r
  end.

(** A library that accepts every object and stamps nothing. *)
#[export] Instance lenient : Stix2 := {|
  ThreatActor_accepts := λ _, true;
  Relationship_accepts := λ _, true;
  serialize := λ _, dump []
|}.

(** The same library in a run that starts at [time]: the [i]-th object
    is stamped [time] and [i]. *)
Definition lenient_at (time : string) : Stix2 := {|
  ThreatActor_accepts := λ _, true;
  Relationship_accepts := λ _, true;
  serialize := λ i,
    dump [("created", JStr (time +:+ "." +:+ pretty i));
          ("modified", JStr (time +:+ "." +:+ pretty i))]
|}.

(** A library that checks the form of identifiers, [type--uuid] with a
    UUID in its canonical form, and the range of a confidence. *)
Definition is_hex (c : ascii) : bool :=
  let n := nat_of_ascii c in
  ((48 <=? n) && (n <=? 57) || (97 <=? n) && (n <=? 102))%nat.

Fixpoint is_uuid_from (groups : list nat) (left : nat) (cs : list ascii)
    : bool :=
  match cs, left with
  | [], O => if groups is [] then true else false
  | c :: rest, S left' => is_hex c && is_uuid_from groups left' rest
  | c :: rest, O =>
      match groups with
      | g :: groups' => Ascii.eqb c "-" && is_uuid_from groups' g rest
      | [] => false
      end
  | [], S _ => false
  end.

Definition is_uuid (s : string) : bool :=
  is_uuid_from [4; 4; 4; 12]%nat 8 (list_ascii_of_string s).

Definition is_id_of (type id : string) : bool :=
  let tag := type +:+ "--" in
  String.prefix tag id &&
  is_uuid (String.substring (String.length tag)
                            (String.length id - String.length tag) id).

Definition strict : Stix2 := {|
  ThreatActor_accepts := λ kw,
    is_id_of "threat-actor" (arg_id kw) &&
    (0 <=? arg_confidence kw) && (arg_confidence kw <=? 100);
  Relationship_accepts := λ r,
    is_id_of "relationship" (rel_id r) &&
    is_id_of "threat-actor" (source_ref r) &&
    is_id_of "threat-actor" (target_ref r);
  serialize := λ _, dump []
|}.

(** Identifiers in the form of a UUID. *)
Definition uuid_counter : Uuid4 := {|
  uuid4_at := λ n,
    let digits := pretty n in
    "00000000-0000-4000-8000-" +:+
    Nat.iter (12 - String.length digits) (String "0") digits
|}.

#[export] Instance counter : Uuid4 := {| uuid4_at := λ n, pretty n |}.

Definition world (doc : json) : World :=
  {| files := {["misp_data.json" := Document doc]};
     locked := ∅;
     draws := 0%nat |}.

Definition run (doc : json) : result unit * World :=
  convert "misp_data.json" "stix_output_2_0.json" (world doc).

(** The end-to-end document of the specification. *)
Definition apt_x : json :=
  JObj [("uuid", JStr "a1"); ("value", JStr "APT-X");
        ("meta", JObj [("synonyms", JArr [JStr "Foo"]);
                       ("country", JStr "RU")]);
        ("related", JArr [JObj [("dest-uuid", JStr "b2");
                                ("type", JStr "uses")]])].

(** The actor of [apt_x] and the edge of its stub. *)
Definition apt_x_actor : ThreatActor :=
  {| ta_id := "threat-actor--a1";
     ta_name := "APT-X";
     ta_description := Some "No description available.";
     ta_aliases := ["Foo"];
     ta_labels := ["Country: RU"];
     ta_external_references := [];
     ta_confidence := 50 |}.

Definition apt_x_edge : Relationship :=
  {| rel_id := "relationship--0";
     relationship_type := "related-to";
     source_ref := "threat-actor--a1";
     target_ref := "threat-actor--b2";
     rel_description := "Relationship type: uses";
     rel_confidence := 80 |}.

(** Records with well-formed identifiers. *)
Definition uuid_y : string := "5b4ee3ea-eee3-4c8e-8323-85ae32658754".
Definition uuid_z : string := "7cdff317-a673-4474-84ec-4f1754947823".

Definition record (uuid name : string) (more : list (string * json)) : json :=
  JObj (("uuid", JStr uuid) :: ("value", JStr name) :: more).

Definition actor (uuid name : string) (description : option string)
    (confidence : Z) : ThreatActor :=
  {| ta_id := "threat-actor--" +:+ uuid;
     ta_name := name;
     ta_description := description;
     ta_aliases := [];
     ta_labels := [];
     ta_external_references := [];
     ta_confidence := confidence |}.

Definition apt_y : json := record uuid_y "APT-Y" [].
Definition apt_z : json := record uuid_z "APT-Z" [].

(** The same ["uuid"] as [apt_y] under another name. *)
Definition apt_y_twin : json := record uuid_y "APT-Y (alias)" [].

Definition confidence_90 : list (string * json) :=
  [("attribution-confidence", JInt 90)].
Definition confidence_high : list (string * json) :=
  [("attribution-confidence", JStr "high")].

Definition apt_z_null_description : json :=
  record uuid_z "APT-Z" [("description", JNull)].

Definition apt_z_synonyms_5 : json :=
  record uuid_z "APT-Z" [("meta", JObj [("synonyms", JInt 5)])].

Definition apt_z_related_5 : json :=
  record uuid_z "APT-Z" [("related", JInt 5)].

(** No ["value"]; its stub would be a valid one. *)
Definition nameless : list (string * json) :=
  [("uuid", JStr uuid_z);
   ("related", JArr [JObj [("dest-uuid", JStr uuid_y);
                           ("type", JStr "similar")]])].

Definition stubs : list json :=
  [JObj [("dest-uuid", JStr uuid_y); ("type", JStr "similar")];
   JObj [("dest-uuid", JStr uuid_z)];
   JInt 7;
   JStr "dest-uuid type";
   JObj [("type", JStr "uses"); ("dest-uuid", JStr uuid_z)]].

Definition document (records : list json) : json :=
  JObj [("values", JArr records)].

(** A record with every metadata field; the sector is there but empty,
    and one of the references is a number. *)
Definition meta_full : list (string * json) :=
  [("synonyms", JStr "Fancy");
   ("refs", JArr [JStr "https://a.example"; JInt 3; JStr "https://b.example"]);
   ("country", JStr "RU");
   ("targeted-sector", JStr "")].

Definition apt_y_full : json := record uuid_y "APT-Y" [("meta", JObj meta_full)].

Definition apt_y_full_actor : ThreatActor :=
  {| ta_id := "threat-actor--" +:+ uuid_y;
     ta_name := "APT-Y";
     ta_description := Some "No description available.";
     ta_aliases := ["Fancy"];
     ta_labels := ["Country: RU"];
     ta_external_references :=
       [{| source_name := "MISP"; url := "https://a.example" |};
        {| source_name := "MISP"; url := "https://b.example" |}];
     ta_confidence := 50 |}.

Definition apt_z_meta_null : list (string * json) :=
  [("uuid", JStr uuid_z); ("value", JStr "APT-Z"); ("meta", JNull)].

Definition apt_y_related (related : json) : json :=
  record uuid_y "APT-Y" [("related", related)].

Definition apt_z_related (related : json) : json :=
  record uuid_z "APT-Z" [("related", related)].

(** Two records with relationships to each other. *)
Definition linked : list json :=
  [apt_y_related (JArr [JObj [("dest-uuid", JStr uuid_z);
                              ("type", JStr "similar")]]);
   apt_z_related (JArr stubs)].

(** A record whose name and first synonym are numbers. *)
Definition numbered : json :=
  JObj [("uuid", JStr uuid_z); ("value", JInt 5);
        ("meta", JObj [("synonyms", JArr [JInt 5; JStr "x"])])].

Definition numbered_actor : ThreatActor :=
  {| ta_id := "threat-actor--" +:+ uuid_z;
     ta_name := "5";
     ta_description := Some "No description available.";
     ta_aliases := ["5"; "x"];
     ta_labels := [];
     ta_external_references := [];
     ta_confidence := 50 |}.

(** Another source of identifiers. *)
Definition counter_from_100 : Uuid4 :=
  {| uuid4_at := λ n, pretty (100 + n)%nat |}.

End Fixture.

(** ** Vocabulary of the statements *)

(** A stub from which an edge can be built: a dict that has both keys. *)
Definition stub_ok (relation : json) : bool :=
  match relation with
  | JObj kvs =>
      (if assoc "dest-uuid" kvs is Some _ then true else false) &&
      (if assoc "type" kvs is Some _ then true else false)
  | _ => false
  end.

(** [r] is the edge from [source] that the stub [relation] describes. *)
Definition stub_edge `{Py.Interpreter} (source : string) (relation : json)
    (r : Relationship) : Prop :=
  ∃ dest kind,
    Py.getitem relation "dest-uuid" = Ok dest ∧
    Py.getitem relation "type" = Ok kind ∧
    relationship_type r = "related-to" ∧
    source_ref r = source ∧
    target_ref r = "threat-actor--" +:+ Py.str dest ∧
    rel_description r = "Relationship type: " +:+ Py.str kind ∧
    rel_confidence r = 80.

(** [out] is what the stub [relation] adds to the relationships of
    [source]: nothing when it lacks a key; else there is the call of the
    constructor for its edge, under an identifier drawn for it, and
    [out] is that edge when the library accepts the call and nothing
    when it rejects it. *)
Definition stub_outcome `{Py.Interpreter} `{Stix2} `{Uuid4} (source : string)
    (relation : json) (out : list Relationship) : Prop :=
  if stub_ok relation then
    ∃ r k, stub_edge source relation r ∧
           rel_id r = "relationship--" +:+ uuid4_at k ∧
           out = if Relationship_accepts r then [r] else []
  else out = [].

(** [block] is what the record [item] adds to [stix_objects]: nothing
    when the record is skipped, else its actor followed at once by the
    edges of the stubs of its ["related"] list, in the order of the
    stubs. *)
Definition record_block `{Py.Interpreter} `{Stix2} (item : json)
    (block : list STIXObject) : Prop :=
  (create_threat_actor item = Ok None ∧ block = []) ∨
  ∃ actor relationships,
    create_threat_actor item = Ok (Some actor) ∧
    block = SDO actor :: map SRO relationships ∧
    (relationships = [] ∨
     ∃ related stubs used,
       Py.getitem item "related" = Ok related ∧
       Py.iter related = Ok stubs ∧
       used `sublist_of` List.filter stub_ok stubs ∧
       Forall2 (stub_edge (ta_id actor)) used relationships).

(** The text a record's ["uuid"] contributes to its actor's identifier. *)
Definition record_uuid `{Py.Interpreter} (item : json) : option string :=
  match item with
  | JObj kvs => Py.str <$> assoc "uuid" kvs
  | _ => None
  end.

(** The identifiers of the actors among [stix_objects], in order. *)
Definition actor_ids (stix_objects : list STIXObject) : list string :=
  omap (λ o, if o is SDO a then Some (ta_id a) else None) stix_objects.

(** The strings among the items of a list, in order. *)
Definition strings_of (l : list json) : list string :=
  omap (λ v, if v is JStr s then Some s else None) l.

(** The actors and the relationship identifiers among [stix_objects], in
    order. *)
Definition actors (stix_objects : list STIXObject) : list ThreatActor :=
  omap (λ o, if o is SDO a then Some a else None) stix_objects.

Definition relationship_ids (stix_objects : list STIXObject) : list string :=
  omap (λ o, if o is SRO r then Some (rel_id r) else None) stix_objects.

(** The actor [create_threat_actor] returns for [item], if it returns
    one. *)
Definition built_actor `{Py.Interpreter} `{Stix2} (item : json)
    : option ThreatActor :=
  match create_threat_actor item with
  | Ok (Some a) => Some a
  | _ => None
  end.

(** The identifier made from the [k]-th draw of [uuid4]. *)
Definition relationship_id_at `{Uuid4} (k : nat) : string :=
  "relationship--" +:+ uuid4_at k.

(** [ks] are distinct draws of [uuid4], all made from draw [lo] on and
    before draw [hi]. *)
Definition drawn (lo hi : nat) (ks : list nat) : Prop :=
  NoDup ks ∧ Forall (λ k, (lo ≤ k < hi)%nat) ks ∧ (lo ≤ hi)%nat.

(** * Properties *)


(** ** The exception monad *)

Lemma bind_Ok {A B} (m : result A) (f : A → result B) (b : B) :
  m ≫= f = Ok b → ∃ a, m = Ok a ∧ f a = Ok b.
Proof. destruct m as [a|e]; [eauto | discriminate]. Qed.

(** Case analysis on the next operation a [result] computation in [H]
    depends on, dropping the branches in which it raised. *)
Ltac next_op H :=
  match type of H with
  | context [mbind _ ?m] =>
      let E := fresh "E" in
      destruct m eqn:E; cbn [mbind result_bind] in H; try discriminate H
  | context [if ?b then _ else _] =>
      let E := fresh "E" in destruct b eqn:E; try discriminate H
  end.

Section Properties.
Context `{Py.Interpreter} `{Stix2} `{Uuid4}.

(** *** [create_threat_actor] *)

Lemma all_in_uuid_value item :
  Py.all_in ["uuid"; "value"] item = Ok true →
  Py.contains "uuid" item = Ok true ∧ Py.contains "value" item = Ok true.
Proof.
  cbn. intros Hall. next_op Hall. destruct a; [|discriminate].
  next_op Hall. destruct a; [done|discriminate].
Qed.

(** The arguments [threat_actor_args] returns, and what made them. *)
Lemma threat_actor_args_Some item kw :
  threat_actor_args item = Ok (Some kw) →
  ∃ kvs uuid name mkvs synonyms refs,
    item = JObj kvs ∧
    assoc "uuid" kvs = Some uuid ∧
    assoc "value" kvs = Some name ∧
    default (JObj []) (assoc "meta" kvs) = JObj mkvs ∧
    _sanitize_list (default JNull (assoc "synonyms" mkvs)) = Ok synonyms ∧
    _sanitize_list (default JNull (assoc "refs" mkvs)) = Ok refs ∧
    Py.int (default (JInt 50) (assoc "attribution-confidence" mkvs))
      = Ok (arg_confidence kw) ∧
    arg_id kw = "threat-actor--" +:+ Py.str uuid ∧
    arg_name kw = name ∧
    arg_description kw =
      default (JStr "No description available.") (assoc "description" kvs) ∧
    arg_aliases kw = synonyms ∧
    arg_external_references kw =
      omap (λ ref, if ref is JStr u
                   then Some {| source_name := "MISP"; url := u |}
                   else None) refs ∧
    arg_labels kw =
      (if Py.truthy (default JNull (assoc "country" mkvs))
       then ["Country: " +:+ Py.str (default JNull (assoc "country" mkvs))]
       else []) ++
      (if Py.truthy (default JNull (assoc "targeted-sector" mkvs))
       then ["Targeted Sector: " +:+
             Py.str (default JNull (assoc "targeted-sector" mkvs))]
       else []).
Proof.
  unfold threat_actor_args. intros Hargs.
  next_op Hargs. destruct a; cbn in Hargs; [|discriminate].
  destruct item as [| | | | | |kvs]; try discriminate. cbn in Hargs.
  destruct (assoc "uuid" kvs) as [uuid|] eqn:Euuid; [|discriminate].
  destruct (assoc "value" kvs) as [name|] eqn:Ename;
    [|by repeat next_op Hargs].
  destruct (default (JObj []) (assoc "meta" kvs)) as [| | | | | |mkvs] eqn:Emeta;
    try discriminate.
  cbn in Hargs.
  apply bind_Ok in Hargs as (synonyms & Esyn & Hargs).
  apply bind_Ok in Hargs as (refs & Erefs & Hargs).
  apply bind_Ok in Hargs as (labels_country & Ecountry & Hargs).
  apply bind_Ok in Hargs as (labels & Esector & Hargs).
  apply bind_Ok in Hargs as (confidence & Econf & Hargs).
  injection Hargs as <-.
  exists kvs, uuid, name, mkvs, synonyms, refs. cbn.
  repeat split; try done.
  destruct (assoc "country" mkvs) as [country|]; cbn in *;
    destruct (assoc "targeted-sector" mkvs) as [sector|]; cbn in *;
    repeat match goal with
    | H : (if ?b then _ else _) = Ok _ |- _ => destruct b; cbn in H
    | H : Ok _ = Ok _ |- _ => injection H as <-
    end; by rewrite ?app_nil_r.
Qed.

(** An actor [threat_actor_of] returns is what the constructor makes of
    arguments it accepts. *)
Lemma threat_actor_of_built item a :
  threat_actor_of item = Ok (Some a) →
  ∃ kw, threat_actor_args item = Ok (Some kw) ∧
        stix2.ThreatActor kw = Ok a ∧
        stix2.dropped (arg_name kw) = false ∧
        ThreatActor_accepts kw = true ∧
        ta_id a = arg_id kw ∧
        ta_name a = Py.str (arg_name kw) ∧
        ta_description a = stix2.string_property (arg_description kw) ∧
        ta_aliases a = Py.str <$> arg_aliases kw ∧
        ta_labels a = arg_labels kw ∧
        ta_external_references a = arg_external_references kw ∧
        ta_confidence a = arg_confidence kw.
Proof.
  unfold threat_actor_of. intros Hta.
  apply bind_Ok in Hta as ([kw|] & Hargs & Hta); [|discriminate].
  apply bind_Ok in Hta as (actor & Hactor & [= <-]).
  exists kw. split; [done|]. split; [done|].
  unfold stix2.ThreatActor, stix2.string_property in Hactor.
  destruct (stix2.dropped (arg_name kw)); [discriminate|].
  destruct (ThreatActor_accepts kw); [|discriminate].
  by injection Hactor as <-.
Qed.

(** What is known of an actor [threat_actor_of] returns. *)
Lemma threat_actor_of_Some item a :
  threat_actor_of item = Ok (Some a) →
  ∃ kvs uuid name mkvs,
    item = JObj kvs ∧
    assoc "uuid" kvs = Some uuid ∧
    assoc "value" kvs = Some name ∧
    default (JObj []) (assoc "meta" kvs) = JObj mkvs ∧
    ta_id a = "threat-actor--" +:+ Py.str uuid ∧
    ta_name a = Py.str name ∧
    ta_description a =
      stix2.string_property
        (default (JStr "No description available.")
                 (assoc "description" kvs)) ∧
    Py.int (default (JInt 50) (assoc "attribution-confidence" mkvs))
      = Ok (ta_confidence a) ∧
    stix2.dropped name = false.
Proof.
  intros Hta.
  apply threat_actor_of_built in Hta
    as (kw & Hargs & _ & Hkept & _ & -> & -> & -> & _ & _ & _ & ->).
  apply threat_actor_args_Some in Hargs
    as (kvs & uuid & name & mkvs & _ & _ & -> & Eu & Ev & Em & _ & _
        & Hint & -> & Hname & -> & _).
  rewrite Hname in *. by exists kvs, uuid, name, mkvs.
Qed.

(** On a dict the [except] branch returns [None]: it never raises. *)
Lemma create_threat_actor_dict kvs :
  ∃ r, create_threat_actor (JObj kvs) = Ok r.
Proof.
  unfold create_threat_actor.
  destruct (threat_actor_of (JObj kvs)); cbn; eauto.
Qed.

Lemma create_threat_actor_Some item a :
  create_threat_actor item = Ok (Some a) →
  threat_actor_of item = Ok (Some a).
Proof.
  unfold create_threat_actor.
  destruct (threat_actor_of item) as [r|e]; cbn; [done|].
  by destruct (Py.get item "value" _).
Qed.

(** C1: a record with ["uuid"] U from which [create_threat_actor]
    builds an actor gives that actor the identifier
    ["threat-actor--" + U]; nothing else in the record, and no random
    draw, enters the identifier. *)
Theorem actor_id_from_uuid item U a :
  Py.getitem item "uuid" = Ok (JStr U) →
  create_threat_actor item = Ok (Some a) →
  ta_id a = "threat-actor--" +:+ U.
Proof.
  intros Huuid Hbuilt.
  apply create_threat_actor_Some, threat_actor_of_Some in Hbuilt
    as (kvs & uuid & _ & _ & -> & Eu & _ & _ & -> & _).
  cbn in Huuid. rewrite Eu in Huuid. by injection Huuid as ->.
Qed.

(** C3, as amended: an actor built from a record whose metadata has no
    ["attribution-confidence"] has confidence 50; an actor built from a
    record whose metadata gives an integer such as 90 has that
    confidence; a record whose metadata gives a value [int] rejects is
    skipped: [create_threat_actor] returns [None]. *)
Theorem confidence_of_actor item meta :
  Py.get item "meta" (JObj []) = Ok meta →
  (∀ a, create_threat_actor item = Ok (Some a) →
        Py.contains "attribution-confidence" meta = Ok false →
        ta_confidence a = 50) ∧
  (∀ a n, create_threat_actor item = Ok (Some a) →
          Py.getitem meta "attribution-confidence" = Ok (JInt n) →
          ta_confidence a = n) ∧
  (∀ v e, Py.getitem meta "attribution-confidence" = Ok v →
          Py.int v = Raise e →
          create_threat_actor item = Ok None).
Proof.
  intros Hmeta. destruct item as [| | | | | |kvs]; try discriminate.
  injection Hmeta as <-. repeat split.
  - intros a Hbuilt Habsent.
    apply create_threat_actor_Some, threat_actor_of_Some in Hbuilt
      as (? & _ & _ & mkvs & [= <-] & _ & _ & Em & _ & _ & _ & Hint & _).
    rewrite Em in Habsent. cbn in Habsent.
    destruct (assoc "attribution-confidence" mkvs); [discriminate|].
    cbn in Hint. congruence.
  - intros a n Hbuilt Hgiven.
    apply create_threat_actor_Some, threat_actor_of_Some in Hbuilt
      as (? & _ & _ & mkvs & [= <-] & _ & _ & Em & _ & _ & _ & Hint & _).
    rewrite Em in Hgiven. cbn in Hgiven.
    destruct (assoc "attribution-confidence" mkvs); [|discriminate].
    injection Hgiven as ->. cbn in Hint. congruence.
  - intros v e Hgiven Hint.
    destruct (create_threat_actor_dict kvs) as [[a|] Hr]; [|done].
    apply create_threat_actor_Some, threat_actor_of_Some in Hr
      as (? & _ & _ & mkvs & [= <-] & _ & _ & Em & _ & _ & _ & Hok & _).
    rewrite Em in Hgiven. cbn in Hgiven.
    destruct (assoc "attribution-confidence" mkvs); [|discriminate].
    injection Hgiven as ->. cbn in Hok. congruence.
Qed.

(** C10, as amended: the placeholder is the description of a built
    actor only when the record has no ["description"] key.  When the key
    is there, a stored string, the empty one included, is the
    description as it stands; a stored null (or empty list) is dropped
    by the constructor, so that the actor has no description at all;
    any other stored value becomes its [str] text. *)
Theorem description_of_actor item a :
  create_threat_actor item = Ok (Some a) →
  (∀ s, Py.getitem item "description" = Ok (JStr s) →
        ta_description a = Some s) ∧
  (∀ v, Py.getitem item "description" = Ok v →
        stix2.dropped v = true → ta_description a = None) ∧
  (∀ v, Py.getitem item "description" = Ok v →
        stix2.dropped v = false → ta_description a = Some (Py.str v)) ∧
  (Py.contains "description" item = Ok false →
   ta_description a = Some "No description available.").
Proof.
  intros Hbuilt.
  apply create_threat_actor_Some, threat_actor_of_Some in Hbuilt
    as (kvs & _ & _ & _ & -> & _ & _ & _ & _ & _ & -> & _).
  unfold stix2.string_property. cbn.
  destruct (assoc "description" kvs) as [d|]; cbn; repeat split; try done.
  - by intros s [= ->].
  - by intros v [= ->] ->.
  - by intros v [= ->] ->.
Qed.

(** *** [_sanitize_list] *)

Lemma sanitize_list_cases :
  _sanitize_list JNull = Ok [] ∧
  (∀ s, _sanitize_list (JStr s) = Ok [JStr s]) ∧
  (∀ l, _sanitize_list (JArr l) = Ok l) ∧
  (∀ kvs, _sanitize_list (JObj kvs) = Ok (map (λ kv, JStr kv.1) kvs)).
Proof. done. Qed.

(** The inputs on which [_sanitize_list] raises. *)
Lemma sanitize_list_raises value :
  (∃ e, _sanitize_list value = Raise e) ↔
  match value with
  | JBool _ | JInt _ | JFloat _ => True
  | _ => False
  end.
Proof.
  destruct value; cbn; split; try done; try (by intros [e ?]); eauto.
Qed.

(** *** The loop of [convert] *)

Lemma convert_loop_app (items1 items2 : list json) stix_objects w :
  convert_loop (items1 ++ items2) stix_objects w =
  (convert_loop items1 stix_objects ≫= convert_loop items2) w.
Proof.
  revert stix_objects w.
  induction items1 as [|item items1 IH]; intros stix_objects w; [done|].
  cbn [app convert_loop]. unfold mbind, IO_bind in *.
  destruct (convert_turn item stix_objects w) as [[objs|e] w']; [|done].
  apply IH.
Qed.

(** A dict record without ["uuid"] or without ["value"] fails the
    check that opens [create_threat_actor]. *)
Lemma create_threat_actor_missing kvs :
  assoc "uuid" kvs = None ∨ assoc "value" kvs = None →
  create_threat_actor (JObj kvs) = Ok None.
Proof.
  unfold create_threat_actor, threat_actor_of. cbn.
  intros [-> | Hv]; [done|].
  rewrite Hv. by destruct (assoc "uuid" kvs).
Qed.

(** C5: a record that lacks the ["uuid"] key or the ["value"] key makes
    [create_threat_actor] return [None], and the loop of [convert] runs
    on the batch as it runs on the batch without that record: the
    record adds no object, and the records around it are converted as
    if it were not there. *)
Theorem missing_identity_skipped kvs :
  assoc "uuid" kvs = None ∨ assoc "value" kvs = None →
  create_threat_actor (JObj kvs) = Ok None ∧
  ∀ before after stix_objects w,
    convert_loop (before ++ JObj kvs :: after) stix_objects w =
    convert_loop (before ++ after) stix_objects w.
Proof.
  intros Hmiss. apply create_threat_actor_missing in Hmiss. split; [done|].
  intros before after stix_objects w. rewrite !convert_loop_app.
  unfold mbind, IO_bind.
  destruct (convert_loop before stix_objects w) as [[objs|e] w']; [|done].
  cbn [convert_loop]. unfold mbind, IO_bind, convert_turn, lift.
  by rewrite Hmiss.
Qed.

(** *** [create_relationships] *)

(** A turn of the loop never raises and leaves the files alone; it adds
    nothing, or the one edge of its stub. *)
Lemma relationship_turn_spec source relation relationships w :
  ∃ new w',
    relationship_turn source relation relationships w
      = (Ok (relationships ++ new), w') ∧
    files w' = files w ∧ locked w' = locked w ∧
    (new = [] ∨ ∃ r, new = [r] ∧ stub_edge source relation r) ∧
    (stub_ok relation = false → new = []) ∧
    ((∀ r, source_ref r = source → Relationship_accepts r = true) →
     stub_ok relation = true → new ≠ []).
Proof.
  unfold relationship_turn, io_try, mbind, IO_bind, lift, uuid4, mret, IO_ret.
  assert (Hskip : ∀ w' (P Q1 Q2 : Prop),
    files w' = files w → locked w' = locked w → (Q1 → Q2 → False) →
    ∃ new w'', (Ok relationships, w') = (Ok (relationships ++ new), w'') ∧
      files w'' = files w ∧ locked w'' = locked w ∧
      (new = [] ∨ ∃ r, new = [r] ∧ stub_edge source relation r) ∧
      (P → new = []) ∧ (Q1 → Q2 → new ≠ [])).
  { intros w' P Q1 Q2 ? ? ?. exists [], w'. rewrite app_nil_r. naive_solver. }
  destruct relation as [| | | |s|l|kvs]; cbn;
    try (apply Hskip; naive_solver).
  - destruct (Py.substring_of "dest-uuid" s), (Py.substring_of "type" s);
      cbn; apply Hskip; naive_solver.
  - destruct (existsb (Py.is_str "dest-uuid") l),
             (existsb (Py.is_str "type") l);
      cbn; apply Hskip; naive_solver.
  - destruct (assoc "dest-uuid" kvs) as [dest|] eqn:Edest,
             (assoc "type" kvs) as [kind|] eqn:Ekind;
      cbn; try (apply Hskip; naive_solver).
    unfold stix2.Relationship.
    destruct (Relationship_accepts _) eqn:Eacc.
    + eexists [_], _. split; [done|]. repeat split; try done.
      right. eexists. split; [done|]. exists dest, kind. cbn.
      by rewrite Edest, Ekind.
    + apply Hskip; [done..|]. intros Hlib _.
      by rewrite Hlib in Eacc.
Qed.

Lemma relationships_loop_spec source stubs relationships w :
  ∃ new w',
    relationships_loop source stubs relationships w
      = (Ok (relationships ++ new), w') ∧
    files w' = files w ∧ locked w' = locked w ∧
    (∃ used, used `sublist_of` List.filter stub_ok stubs ∧
             Forall2 (stub_edge source) used new) ∧
    ((∀ r, source_ref r = source → Relationship_accepts r = true) →
     Forall2 (stub_edge source) (List.filter stub_ok stubs) new).
Proof.
  revert relationships w.
  induction stubs as [|stub stubs IH]; intros relationships w.
  { exists [], w. rewrite app_nil_r. cbn. repeat split; eauto. }
  destruct (relationship_turn_spec source stub relationships w)
    as (new1 & w1 & Eturn & Hf1 & Hl1 & Hnew1 & Hbad & Hgood).
  destruct (IH (relationships ++ new1) w1)
    as (new2 & w2 & Eloop & Hf2 & Hl2 & (used & Hsub & Hused) & Hall).
  exists (new1 ++ new2), w2.
  cbn [relationships_loop List.filter]. unfold mbind, IO_bind.
  rewrite Eturn, Eloop, app_assoc.
  split; [done|]. split; [congruence|]. split; [congruence|].
  destruct (stub_ok stub) eqn:Eok.
  - destruct Hnew1 as [-> | (r & -> & Hedge)]; split.
    + exists used. split; [by apply sublist_cons | done].
    + intros Hlib. by destruct (Hgood Hlib eq_refl).
    + exists (stub :: used). split; [by apply sublist_skip|].
      by constructor.
    + intros Hlib. constructor; auto.
  - rewrite (Hbad eq_refl). split; [by exists used | done].
Qed.

Lemma relationship_turn_outcome source relation relationships w :
  ∃ new w',
    relationship_turn source relation relationships w
      = (Ok (relationships ++ new), w') ∧
    stub_outcome source relation new.
Proof.
  unfold relationship_turn, io_try, mbind, IO_bind, lift, uuid4, mret, IO_ret.
  unfold stub_outcome.
  assert (Hskip : ∀ w' : World,
    ∃ (new : list Relationship) (w'' : World),
      (Ok relationships, w') = (Ok (relationships ++ new), w'') ∧
      new = []).
  { intros w'. exists [], w'. by rewrite app_nil_r. }
  destruct relation as [| | | |s|l|kvs]; cbn; try (by apply Hskip).
  - destruct (Py.substring_of "dest-uuid" s), (Py.substring_of "type" s);
      cbn; apply Hskip.
  - destruct (existsb (Py.is_str "dest-uuid") l),
             (existsb (Py.is_str "type") l);
      cbn; apply Hskip.
  - destruct (assoc "dest-uuid" kvs) as [dest|] eqn:Edest,
             (assoc "type" kvs) as [kind|] eqn:Ekind;
      cbn; try (by apply Hskip).
    unfold stix2.Relationship.
    set (r := {| rel_id := "relationship--" +:+ uuid4_at (draws w);
                 relationship_type := "related-to";
                 source_ref := source;
                 target_ref := "threat-actor--" +:+ Py.str dest;
                 rel_description := "Relationship type: " +:+ Py.str kind;
                 rel_confidence := 80 |}).
    assert (Hedge : stub_edge source (JObj kvs) r).
    { exists dest, kind. cbn. by rewrite Edest, Ekind. }
    destruct (Relationship_accepts r) eqn:Eacc.
    + eexists [r], _. split; [done|]. exists r, (draws w). by rewrite Eacc.
    + eexists [], _. rewrite app_nil_r. split; [done|].
      exists r, (draws w). by rewrite Eacc.
Qed.

Lemma relationships_loop_outcomes source stubs relationships w :
  ∃ outcomes w',
    relationships_loop source stubs relationships w
      = (Ok (relationships ++ concat outcomes), w') ∧
    Forall2 (stub_outcome source) stubs outcomes.
Proof.
  revert relationships w.
  induction stubs as [|stub stubs IH]; intros relationships w.
  { exists [], w. cbn. by rewrite app_nil_r. }
  destruct (relationship_turn_outcome source stub relationships w)
    as (new & w1 & Eturn & Hnew).
  destruct (IH (relationships ++ new) w1) as (outcomes & w2 & Eloop & Hall).
  exists (new :: outcomes), w2.
  cbn [relationships_loop concat]. unfold mbind, IO_bind.
  rewrite Eturn, Eloop, app_assoc. split; [done | by constructor].
Qed.

(** C6, as amended: [create_relationships] never fails on a list of
    stubs, whatever the stubs are, and what it returns is made stub by
    stub, in the order of the stubs: a stub that has both ["dest-uuid"]
    and ["type"] and whose edge (type ["related-to"], the given source,
    target ["threat-actor--" + dest-uuid], the description that echoes
    the stub's type, confidence 80) the constructor accepts gives
    exactly that edge; a stub that lacks a key, or whose edge the
    constructor rejects, gives nothing and stops nothing. *)
Theorem create_relationships_partial source stubs w :
  ∃ outcomes w',
    create_relationships source (JArr stubs) w = (Ok (concat outcomes), w') ∧
    Forall2 (stub_outcome source) stubs outcomes.
Proof.
  destruct (relationships_loop_outcomes source stubs [] w)
    as (outcomes & w' & Eloop & Hall).
  exists outcomes, w'. split; [|done].
  unfold create_relationships, mbind, IO_bind, lift; cbn. apply Eloop.
Qed.

Lemma create_relationships_spec source related w r w' :
  create_relationships source related w = (r, w') →
  files w' = files w ∧ locked w' = locked w ∧
  ∀ relationships, r = Ok relationships →
    ∃ stubs used,
      Py.iter related = Ok stubs ∧
      used `sublist_of` List.filter stub_ok stubs ∧
      Forall2 (stub_edge source) used relationships.
Proof.
  unfold create_relationships, mbind, IO_bind, lift.
  destruct (Py.iter related) as [stubs|e]; [|by intros [= <- <-]].
  destruct (relationships_loop_spec source stubs [] w)
    as (new & w1 & -> & Hf & Hl & (used & Hsub & Hused) & _).
  intros [= <- <-]. repeat split; [done..|].
  intros ? [= <-]. by exists stubs, used.
Qed.

(** *** [convert] *)

Lemma convert_turn_spec item stix_objects w r w' :
  convert_turn item stix_objects w = (r, w') →
  files w' = files w ∧ locked w' = locked w ∧
  ∀ stix_objects', r = Ok stix_objects' →
    ∃ block, stix_objects' = stix_objects ++ block ∧ record_block item block.
Proof.
  unfold convert_turn, mbind, IO_bind, lift, mret, IO_ret.
  destruct (create_threat_actor item) as [[actor|]|e] eqn:Eactor;
    [| |by intros [= <- <-]].
  2:{ intros [= <- <-]. repeat split; [done..|]. intros ? [= <-].
      exists []. rewrite app_nil_r. split; [done|]. by left. }
  destruct (Py.get item "related" JNull) as [related|e];
    [|by intros [= <- <-]].
  destruct (Py.truthy related).
  - destruct (Py.getitem item "related") as [related_items|e] eqn:Erel;
      [|by intros [= <- <-]].
    destruct (create_relationships _ _ w) as [[rels|e] w1] eqn:Ecr;
      apply create_relationships_spec in Ecr as (Hf & Hl & Hrels);
      intros [= <- <-]; repeat split; try done.
    intros ? [= <-].
    destruct (Hrels rels eq_refl) as (stubs & used & Hit & Hsub & Hused).
    exists (SDO actor :: map SRO rels).
    split; [by rewrite <- app_assoc|].
    right. exists actor, rels. repeat split; [done|].
    right. by exists related_items, stubs, used.
  - intros [= <- <-]. repeat split; [done..|]. intros ? [= <-].
    exists [SDO actor]. split; [done|].
    right. exists actor, []. repeat split; [done|]. by left.
Qed.

Lemma convert_loop_spec items stix_objects w r w' :
  convert_loop items stix_objects w = (r, w') →
  files w' = files w ∧ locked w' = locked w ∧
  ∀ stix_objects', r = Ok stix_objects' →
    ∃ blocks, stix_objects' = stix_objects ++ concat blocks ∧
              Forall2 record_block items blocks.
Proof.
  revert stix_objects w.
  induction items as [|item items IH]; intros stix_objects w; cbn.
  { intros [= <- <-]. repeat split; [done..|]. intros ? [= <-].
    exists []. by rewrite app_nil_r. }
  unfold mbind, IO_bind.
  destruct (convert_turn item stix_objects w) as [[objs|e] w1] eqn:Eturn;
    apply convert_turn_spec in Eturn as (Hf & Hl & Hblock).
  2:{ by intros [= <- <-]. }
  intros Eloop. apply IH in Eloop as (Hf' & Hl' & Hblocks).
  split; [congruence|]. split; [congruence|].
  intros objs' ->.
  destruct (Hblock objs eq_refl) as (block & -> & Hrec).
  destruct (Hblocks objs' eq_refl) as (blocks & -> & Hrecs).
  exists (block :: blocks). cbn. rewrite app_assoc. by split; [|constructor].
Qed.

(** The two ways [convert] ends: an error with the files as they were,
    or a bundle of the objects of the loop, which are not none, at the
    output path. *)
Lemma convert_spec input_file output_file w r w' :
  convert input_file output_file w = (r, w') →
  (∀ e, r = Raise e → files w' = files w) ∧
  (r = Ok () →
   ∃ kvs values items stix_objects w1,
     files w !! input_file = Some (Document (JObj kvs)) ∧
     assoc "values" kvs = Some values ∧
     Py.iter values = Ok items ∧
     convert_loop items [] w = (Ok stix_objects, w1) ∧
     stix_objects ≠ [] ∧
     files w' = <[output_file :=
                   Document (stix_bundle_data (uuid4_at (draws w1))
                                              stix_objects)]> (files w)).
Proof.
  unfold convert, io_try, load_misp_data, read_json, raise, lift.
  unfold mbind, IO_bind, mret, IO_ret.
  destruct (files w !! input_file) as [[|doc]|] eqn:Efile;
    try (intros [= <- <-]; by split).
  destruct doc as [| | | | | |kvs]; try (intros [= <- <-]; by split).
  destruct (assoc "values" kvs) as [values|] eqn:Evalues;
    [|intros [= <- <-]; by split].
  cbn. rewrite Evalues. cbn.
  destruct (Py.iter values) as [items|e] eqn:Eiter;
    [|intros [= <- <-]; by split].
  destruct (convert_loop items [] w) as [[objs|e] w1] eqn:Eloop;
    apply convert_loop_spec in Eloop as Hw; destruct Hw as (Hf & Hl & _).
  2:{ intros [= <- <-]. by split. }
  destruct objs as [|o objs]; [intros [= <- <-]; by split|].
  unfold uuid4, write_json. cbn.
  destruct (bool_decide _); intros [= <- <-]; cbn; (split; [done|]).
  - done.
  - intros _. exists kvs, values, items, (o :: objs), w1.
    by rewrite Hf.
Qed.

(** C7: when the loop over the records of the input document ends with
    no object, as it does on ["values": []], [convert] raises
    [ValueError] and every file, the one at the output path included,
    is as it was: no bundle is written. *)
Theorem empty_result_guard input_file output_file w kvs values items w1 :
  files w !! input_file = Some (Document (JObj kvs)) →
  assoc "values" kvs = Some values →
  Py.iter values = Ok items →
  convert_loop items [] w = (Ok [], w1) →
  convert input_file output_file w = (Raise ValueError, w1) ∧
  files w1 = files w ∧
  (items = [] → w1 = w).
Proof.
  intros Efile Evalues Eiter Eloop.
  split; [|split].
  - unfold convert, io_try, load_misp_data, read_json, raise, lift.
    unfold mbind, IO_bind, mret, IO_ret.
    rewrite Efile, Evalues. cbn. rewrite Evalues. cbn. by rewrite Eiter, Eloop.
  - by apply convert_loop_spec in Eloop as (? & _).
  - intros ->. cbn in Eloop. by injection Eloop.
Qed.

Lemma bundle_order_blocks input_file output_file w w' :
  convert input_file output_file w = (Ok (), w') →
  ∃ kvs values items fresh stix_objects blocks,
    files w !! input_file = Some (Document (JObj kvs)) ∧
    assoc "values" kvs = Some values ∧
    Py.iter values = Ok items ∧
    files w' !! output_file
      = Some (Document (stix_bundle_data fresh stix_objects)) ∧
    stix_objects = concat blocks ∧
    Forall2 record_block items blocks.
Proof.
  intros Hrun. apply convert_spec in Hrun as [_ Hok].
  destruct (Hok eq_refl)
    as (kvs & values & items & objs & w1 & Ef & Ev & Ei & Eloop & _ & ->).
  apply convert_loop_spec in Eloop as (_ & _ & Hblocks).
  destruct (Hblocks objs eq_refl) as (blocks & -> & Hrecs).
  exists kvs, values, items, (uuid4_at (draws w1)), (concat blocks), blocks.
  by rewrite lookup_insert_eq.
Qed.


(** *** Actor identifiers of a bundle *)

Lemma actor_ids_relationships relationships :
  actor_ids (map SRO relationships) = [].
Proof. by induction relationships. Qed.

Lemma actor_ids_app objs1 objs2 :
  actor_ids (objs1 ++ objs2) = actor_ids objs1 ++ actor_ids objs2.
Proof. apply omap_app. Qed.

Lemma record_block_actor_ids item block :
  record_block item block →
  actor_ids block = [] ∨
  ∃ u, record_uuid item = Some u ∧
       actor_ids block = ["threat-actor--" +:+ u].
Proof.
  intros [[_ ->] | (actor & rels & Hbuilt & -> & _)]; [by left|right].
  apply create_threat_actor_Some, threat_actor_of_Some in Hbuilt
    as (kvs & uuid & _ & _ & -> & Eu & _ & _ & Hid & _).
  exists (Py.str uuid). cbn. rewrite Eu. split; [done|].
  unfold actor_ids. cbn. fold (actor_ids (map SRO rels)).
  by rewrite actor_ids_relationships, Hid.
Qed.

Lemma blocks_actor_ids items blocks :
  Forall2 record_block items blocks →
  ∃ us, us `sublist_of` omap record_uuid items ∧
        actor_ids (concat blocks) = String.append "threat-actor--" <$> us.
Proof.
  induction 1 as [|item block items blocks Hblock _ (us & Hsub & Hids)].
  { by exists []. }
  cbn [concat]. rewrite actor_ids_app, Hids.
  apply record_block_actor_ids in Hblock as [-> | (u & Hu & ->)].
  - exists us. split; [|done]. cbn.
    destruct (record_uuid item); [by apply sublist_cons | done].
  - exists (u :: us). cbn. rewrite Hu. split; [by apply sublist_skip | done].
Qed.

(** C9, as amended: when the ["uuid"] values of the records of the
    input document are pairwise distinct as formatted into identifiers,
    the identifiers of the actors of the written bundle are pairwise
    distinct. *)
Theorem actor_ids_distinct input_file output_file w w' kvs values items :
  files w !! input_file = Some (Document (JObj kvs)) →
  assoc "values" kvs = Some values →
  Py.iter values = Ok items →
  NoDup (omap record_uuid items) →
  convert input_file output_file w = (Ok (), w') →
  ∃ fresh stix_objects,
    files w' !! output_file
      = Some (Document (stix_bundle_data fresh stix_objects)) ∧
    NoDup (actor_ids stix_objects).
Proof.
  intros Ef Ev Ei Hdistinct Hrun.
  apply bundle_order_blocks in Hrun
    as (kvs' & values' & items' & fresh & objs & blocks
        & Ef' & Ev' & Ei' & Eout & -> & Hrecs).
  assert (items' = items) as -> by congruence.
  exists fresh, (concat blocks). split; [done|].
  apply blocks_actor_ids in Hrecs as (us & Hsub & ->).
  apply NoDup_fmap_2; [apply _|]. by eapply sublist_NoDup.
Qed.

(** *** Where an exception escapes a turn of the loop of [convert] *)

(** The [for] of [create_relationships] is outside its [try]. *)
Lemma create_relationships_not_iterable source related w :
  Py.iter related = Raise TypeError →
  create_relationships source related w = (Raise TypeError, w).
Proof.
  intros Hiter. unfold create_relationships, mbind, IO_bind, lift.
  by rewrite Hiter.
Qed.

Lemma convert_turn_related_not_iterable item actor related stix_objects w :
  create_threat_actor item = Ok (Some actor) →
  Py.getitem item "related" = Ok related →
  Py.truthy related = true →
  Py.iter related = Raise TypeError →
  convert_turn item stix_objects w = (Raise TypeError, w).
Proof.
  intros Hbuilt Hrel Htrue Hiter.
  unfold convert_turn, mbind, IO_bind, lift. rewrite Hbuilt.
  destruct item as [| | | | | |kvs]; try discriminate. cbn in *.
  destruct (assoc "related" kvs); [|discriminate].
  injection Hrel as ->. cbn. rewrite Htrue.
  by rewrite create_relationships_not_iterable.
Qed.

(** The [except] branch of [create_threat_actor] calls [item.get]. *)
Lemma create_threat_actor_not_dict item e :
  threat_actor_of item = Raise e →
  (if item is JObj _ then False else True) →
  create_threat_actor item = Raise AttributeError.
Proof.
  intros Hbody Hshape. unfold create_threat_actor. rewrite Hbody.
  by destruct item.
Qed.

(** ** Further properties of the converter *)

(** *** The fields of a built actor *)

(** What the metadata of a record gives an actor [threat_actor_of]
    returns. *)
Lemma threat_actor_of_meta item a :
  threat_actor_of item = Ok (Some a) →
  ∃ kvs mkvs refs,
    item = JObj kvs ∧
    default (JObj []) (assoc "meta" kvs) = JObj mkvs ∧
    (∃ synonyms,
       _sanitize_list (default JNull (assoc "synonyms" mkvs)) = Ok synonyms ∧
       ta_aliases a = Py.str <$> synonyms) ∧
    _sanitize_list (default JNull (assoc "refs" mkvs)) = Ok refs ∧
    ta_external_references a =
      omap (λ ref, if ref is JStr u
                   then Some {| source_name := "MISP"; url := u |}
                   else None) refs ∧
    ta_labels a =
      (if Py.truthy (default JNull (assoc "country" mkvs))
       then ["Country: " +:+ Py.str (default JNull (assoc "country" mkvs))]
       else []) ++
      (if Py.truthy (default JNull (assoc "targeted-sector" mkvs))
       then ["Targeted Sector: " +:+
             Py.str (default JNull (assoc "targeted-sector" mkvs))]
       else []).
Proof.
  intros Hta.
  apply threat_actor_of_built in Hta
    as (kw & Hargs & _ & _ & _ & _ & _ & _ & -> & -> & -> & _).
  apply threat_actor_args_Some in Hargs
    as (kvs & _ & _ & mkvs & synonyms & refs & -> & _ & _ & Em & Esyn & Erefs
        & _ & _ & _ & _ & -> & -> & ->).
  exists kvs, mkvs, refs. repeat split; try done. by exists synonyms.
Qed.

Lemma external_references_urls refs :
  let references :=
    omap (λ ref, if ref is JStr u
                 then Some {| source_name := "MISP"; url := u |}
                 else None) refs in
  url <$> references = strings_of refs ∧
  Forall (λ e, source_name e = "MISP") references.
Proof.
  induction refs as [|ref refs [IHurl IHsrc]]; [by split|].
  destruct ref; cbn; try by split.
  split; [by f_equal | by constructor].
Qed.

(** X1: the labels of a built actor are the country label, when the
    metadata has a truthy ["country"], followed by the sector label,
    when it has a truthy ["targeted-sector"]; a value that is there but
    falsy (null, "", 0, false, an empty list) gives no label. *)
Theorem labels_of_actor item a meta country sector :
  create_threat_actor item = Ok (Some a) →
  Py.get item "meta" (JObj []) = Ok meta →
  Py.get meta "country" JNull = Ok country →
  Py.get meta "targeted-sector" JNull = Ok sector →
  ta_labels a =
    (if Py.truthy country then ["Country: " +:+ Py.str country] else []) ++
    (if Py.truthy sector then ["Targeted Sector: " +:+ Py.str sector]
     else []).
Proof.
  intros Hbuilt Hmeta Hcountry Hsector.
  apply create_threat_actor_Some, threat_actor_of_meta in Hbuilt
    as (kvs & mkvs & _ & -> & Em & _ & _ & _ & ->).
  cbn in Hmeta. rewrite Em in Hmeta. injection Hmeta as <-.
  cbn in Hcountry, Hsector. by injection Hcountry as <-; injection Hsector as <-.
Qed.

(** X2: the external references of a built actor are one entry per
    string among the items of the sanitized ["refs"], in their order,
    each with source name "MISP"; items that are not strings are
    dropped. *)
Theorem external_references_of_actor item a meta refs_value :
  create_threat_actor item = Ok (Some a) →
  Py.get item "meta" (JObj []) = Ok meta →
  Py.get meta "refs" JNull = Ok refs_value →
  ∃ refs,
    _sanitize_list refs_value = Ok refs ∧
    url <$> ta_external_references a = strings_of refs ∧
    Forall (λ e, source_name e = "MISP") (ta_external_references a).
Proof.
  intros Hbuilt Hmeta Hrefs.
  apply create_threat_actor_Some, threat_actor_of_meta in Hbuilt
    as (kvs & mkvs & refs & -> & Em & _ & Esan & -> & _).
  cbn in Hmeta. rewrite Em in Hmeta. injection Hmeta as <-.
  cbn in Hrefs. injection Hrefs as <-.
  exists refs. split; [done|]. apply external_references_urls.
Qed.

(** X3: the name of a built actor is the [str] text of the record's
    ["value"], which is neither null nor an empty list, and its aliases
    are the [str] texts of the items of the sanitized ["synonyms"] of
    the metadata, items that are not strings included. *)
Theorem name_and_aliases_of_actor item a :
  create_threat_actor item = Ok (Some a) →
  (∃ value, Py.getitem item "value" = Ok value ∧
            stix2.dropped value = false ∧
            ta_name a = Py.str value) ∧
  ∀ meta synonyms items,
    Py.get item "meta" (JObj []) = Ok meta →
    Py.get meta "synonyms" JNull = Ok synonyms →
    _sanitize_list synonyms = Ok items →
    ta_aliases a = Py.str <$> items.
Proof.
  intros Hbuilt. apply create_threat_actor_Some in Hbuilt. split.
  - apply threat_actor_of_Some in Hbuilt
      as (kvs & _ & name & _ & -> & _ & Ev & _ & _ & Hname & _ & _ & Hkept).
    exists name. cbn. by rewrite Ev.
  - intros meta synonyms items Hmeta Hsyn Hitems.
    apply threat_actor_of_meta in Hbuilt
      as (kvs & mkvs & _ & -> & Em & (items' & Esyn & ->) & _).
    cbn in Hmeta. rewrite Em in Hmeta. injection Hmeta as <-.
    cbn in Hsyn. injection Hsyn as <-. congruence.
Qed.

(** X4: a record whose ["meta"] is there but is no dict (null, a list,
    a string, a number) is skipped, whatever else it holds. *)
Theorem meta_not_dict_skips kvs meta :
  assoc "meta" kvs = Some meta →
  (if meta is JObj _ then False else True) →
  create_threat_actor (JObj kvs) = Ok None.
Proof.
  intros Hmeta Hshape.
  destruct (create_threat_actor_dict kvs) as [[a|] Hr]; [|done].
  apply create_threat_actor_Some, threat_actor_of_meta in Hr
    as (? & mkvs & _ & [= <-] & Em & _).
  rewrite Hmeta in Em. cbn in Em. by subst meta.
Qed.

(** X5: a record with ["uuid"] and ["value"] and no ["meta"] is handed
    to the constructor with no alias, label or reference and confidence
    50.  When its ["value"] is neither null nor an empty list and the
    library accepts these arguments, it gives the actor named by the
    [str] text of the value, with the stored or placeholder description
    as the constructor keeps it; else it is skipped. *)
Theorem actor_without_meta kvs uuid name :
  assoc "uuid" kvs = Some uuid →
  assoc "value" kvs = Some name →
  assoc "meta" kvs = None →
  let description :=
    default (JStr "No description available.") (assoc "description" kvs) in
  let args :=
    {| arg_id := "threat-actor--" +:+ Py.str uuid;
       arg_name := name;
       arg_description := description;
       arg_aliases := [];
       arg_labels := [];
       arg_external_references := [];
       arg_confidence := 50 |} in
  let actor :=
    {| ta_id := "threat-actor--" +:+ Py.str uuid;
       ta_name := Py.str name;
       ta_description := stix2.string_property description;
       ta_aliases := [];
       ta_labels := [];
       ta_external_references := [];
       ta_confidence := 50 |} in
  create_threat_actor (JObj kvs) =
    Ok (if negb (stix2.dropped name) && ThreatActor_accepts args
        then Some actor else None).
Proof.
  intros Hu Hv Hm.
  unfold create_threat_actor, threat_actor_of, threat_actor_args. cbn.
  rewrite Hu, Hv, Hm. cbn.
  unfold stix2.ThreatActor, stix2.string_property. cbn.
  destruct (stix2.dropped name); [done|]. cbn.
  by destruct (ThreatActor_accepts _).
Qed.

Lemma create_threat_actor_Raise item e :
  create_threat_actor item = Raise e →
  e = AttributeError ∧ (if item is JObj _ then False else True).
Proof.
  intros Hraise. destruct item as [| | | | | |kvs].
  7:{ destruct (create_threat_actor_dict kvs) as [r Hr]. congruence. }
  all: unfold create_threat_actor in Hraise;
    destruct (threat_actor_of _); cbn in Hraise; [discriminate|];
    by injection Hraise as <-.
Qed.

(** X6: [create_threat_actor] never raises on a dict; on anything else
    it returns no actor, and the one exception it can raise is the
    [AttributeError] of its [except] branch. *)
Theorem create_threat_actor_outcomes item :
  (∀ e, create_threat_actor item = Raise e →
        e = AttributeError ∧ (if item is JObj _ then False else True)) ∧
  (∀ a, create_threat_actor item = Ok (Some a) → ∃ kvs, item = JObj kvs).
Proof.
  split; [apply create_threat_actor_Raise|].
  intros a Hbuilt.
  apply create_threat_actor_Some, threat_actor_of_Some in Hbuilt
    as (kvs & _ & _ & _ & -> & _). by exists kvs.
Qed.

(** *** The ["related"] field *)

(** X7: for a record whose actor is built and whose ["related"] is
    missing, null, a boolean or a number, the turn of the loop of
    [convert] adds the actor alone and draws nothing when the value is
    falsy, and raises [TypeError] with nothing done when it is truthy
    ([true], or a number other than zero). *)
Theorem related_scalar item actor related stix_objects w :
  create_threat_actor item = Ok (Some actor) →
  Py.get item "related" JNull = Ok related →
  Py.iter related = Raise TypeError →
  convert_turn item stix_objects w =
    if Py.truthy related then (Raise TypeError, w)
    else (Ok (stix_objects ++ [SDO actor]), w).
Proof.
  intros Hbuilt Hrel Hiter.
  destruct (Py.truthy related) eqn:Htruthy.
  - apply convert_turn_related_not_iterable with actor related; try done.
    destruct item as [| | | | | |kvs]; try discriminate.
    cbn in *. destruct (assoc "related" kvs); [done|].
    cbn in Hrel. injection Hrel as <-. discriminate.
  - unfold convert_turn, mbind, IO_bind, lift. by rewrite Hbuilt, Hrel, Htruthy.
Qed.

(** X8: a ["related"] that is a string or a dict is walked character by
    character, or key by key; none of these is a stub, so no
    relationship comes out, and no error either. *)
Theorem related_not_a_list source related w :
  match related with JStr _ | JObj _ => True | _ => False end →
  ∃ w', create_relationships source related w = (Ok [], w') ∧
        files w' = files w.
Proof.
  intros Hshape.
  destruct (create_relationships source related w) as [r w'] eqn:Erun.
  apply create_relationships_spec in Erun as Hspec.
  destruct Hspec as (Hf & _ & Hrels).
  assert (Hnone : ∀ stubs, Py.iter related = Ok stubs →
                           List.filter stub_ok stubs = []).
  { destruct related as [| | | |s| |kvs]; try done; clear;
      cbn; intros ? [= <-].
    - by induction (Py.characters (list_ascii_of_string s)).
    - by induction kvs. }
  destruct r as [rels|e].
  - destruct (Hrels rels eq_refl) as (stubs & used & Hit & Hsub & Hused).
    rewrite (Hnone stubs Hit) in Hsub. apply sublist_nil_r in Hsub as ->.
    apply Forall2_nil_inv_l in Hused as ->. by exists w'.
  - unfold create_relationships, mbind, IO_bind, lift in Erun.
    destruct (Py.iter related) as [stubs|] eqn:Hit;
      [|by destruct related].
    destruct (relationships_loop_spec source stubs [] w)
      as (? & ? & Eloop & _). congruence.
Qed.

Lemma create_relationships_Raise source related w e w' :
  create_relationships source related w = (Raise e, w') →
  e = TypeError ∧ w' = w ∧ Py.iter related = Raise TypeError.
Proof.
  unfold create_relationships, mbind, IO_bind, lift.
  destruct (Py.iter related) as [stubs|e'] eqn:Hit.
  - destruct (relationships_loop_spec source stubs [] w)
      as (? & ? & -> & _). discriminate.
  - intros [= <- <-]. by destruct related; simplify_eq/=.
Qed.

(** X9: [create_relationships] raises exactly when its second argument
    cannot be iterated (null, a boolean, a number); the error is
    [TypeError] and nothing has been done by then. *)
Theorem create_relationships_raises source related w :
  (Py.iter related = Raise TypeError →
   create_relationships source related w = (Raise TypeError, w)) ∧
  (∀ e w', create_relationships source related w = (Raise e, w') →
           e = TypeError ∧ w' = w ∧ Py.iter related = Raise TypeError).
Proof.
  split; [apply create_relationships_not_iterable|].
  intros e w'. apply create_relationships_Raise.
Qed.

(** *** Identifiers of relationships *)

Lemma drawn_nil lo hi : (lo ≤ hi)%nat → drawn lo hi [].
Proof. intros. split; [constructor|]. by split. Qed.

Lemma drawn_app lo mid hi ks1 ks2 :
  drawn lo mid ks1 → drawn mid hi ks2 → drawn lo hi (ks1 ++ ks2).
Proof.
  intros (Hnd1 & Hin1 & Hle1) (Hnd2 & Hin2 & Hle2).
  rewrite Forall_forall in Hin1, Hin2. split; [|split; [|lia]].
  - apply NoDup_app. split; [done|]. split; [|done].
    intros k Hk1 Hk2. apply Hin1 in Hk1. apply Hin2 in Hk2. lia.
  - apply Forall_app. split; apply Forall_forall; intros k Hk.
    + apply Hin1 in Hk. lia.
    + apply Hin2 in Hk. lia.
Qed.

Lemma relationship_ids_app objs1 objs2 :
  relationship_ids (objs1 ++ objs2)
    = relationship_ids objs1 ++ relationship_ids objs2.
Proof. apply omap_app. Qed.

Lemma relationship_ids_relationships relationships :
  relationship_ids (map SRO relationships) = rel_id <$> relationships.
Proof. induction relationships; [done|]. cbn. by f_equal. Qed.

(** A turn of the loop of [create_relationships] draws at most once, and
    an edge it adds carries the draw. *)
Lemma relationship_turn_draws source relation relationships w :
  ∃ new w' ks,
    relationship_turn source relation relationships w
      = (Ok (relationships ++ new), w') ∧
    rel_id <$> new = relationship_id_at <$> ks ∧
    drawn (draws w) (draws w') ks.
Proof.
  unfold relationship_turn, io_try, mbind, IO_bind, lift, uuid4, mret, IO_ret.
  assert (Hskip : ∀ w', (draws w ≤ draws w')%nat →
    ∃ new w'' ks,
      (Ok relationships, w') = (Ok (relationships ++ new), w'') ∧
      rel_id <$> new = relationship_id_at <$> ks ∧
      drawn (draws w) (draws w'') ks).
  { intros w' ?. exists [], w', []. rewrite app_nil_r.
    split; [done|]. split; [done|]. by apply drawn_nil. }
  destruct relation as [| | | |s|l|kvs]; cbn; try (by apply Hskip).
  - destruct (Py.substring_of "dest-uuid" s), (Py.substring_of "type" s);
      cbn; apply Hskip; cbn; lia.
  - destruct (existsb (Py.is_str "dest-uuid") l),
             (existsb (Py.is_str "type") l);
      cbn; apply Hskip; cbn; lia.
  - destruct (assoc "dest-uuid" kvs) as [dest|],
             (assoc "type" kvs) as [kind|];
      cbn; try (by apply Hskip).
    unfold stix2.Relationship.
    destruct (Relationship_accepts _); [|apply Hskip; cbn; lia].
    eexists [_], _, [draws w]. split; [done|]. split; [done|]. cbn.
    split; [apply NoDup_singleton|]. split; [|lia].
    apply Forall_singleton. lia.
Qed.

Lemma relationships_loop_draws source stubs relationships w :
  ∃ new w' ks,
    relationships_loop source stubs relationships w
      = (Ok (relationships ++ new), w') ∧
    rel_id <$> new = relationship_id_at <$> ks ∧
    drawn (draws w) (draws w') ks.
Proof.
  revert relationships w.
  induction stubs as [|stub stubs IH]; intros relationships w.
  { exists [], w, []. rewrite app_nil_r. split; [done|]. split; [done|].
    by apply drawn_nil. }
  destruct (relationship_turn_draws source stub relationships w)
    as (new1 & w1 & ks1 & Eturn & Hids1 & Hks1).
  destruct (IH (relationships ++ new1) w1)
    as (new2 & w2 & ks2 & Eloop & Hids2 & Hks2).
  exists (new1 ++ new2), w2, (ks1 ++ ks2).
  cbn [relationships_loop]. unfold mbind, IO_bind.
  rewrite Eturn, Eloop, app_assoc. split; [done|].
  split; [by rewrite !fmap_app, Hids1, Hids2 | by eapply drawn_app].
Qed.

Lemma convert_turn_draws item stix_objects w stix_objects' w' :
  convert_turn item stix_objects w = (Ok stix_objects', w') →
  ∃ ks, relationship_ids stix_objects' =
          relationship_ids stix_objects ++ (relationship_id_at <$> ks) ∧
        drawn (draws w) (draws w') ks.
Proof.
  unfold convert_turn, mbind, IO_bind, lift, mret, IO_ret.
  assert (Hnone : ∀ objs, relationship_ids objs = relationship_ids stix_objects →
    ∃ ks, relationship_ids objs =
            relationship_ids stix_objects ++ (relationship_id_at <$> ks) ∧
          drawn (draws w) (draws w) ks).
  { intros objs ->. exists []. rewrite app_nil_r. split; [done|].
    by apply drawn_nil. }
  destruct (create_threat_actor item) as [[actor|]|e]; [| |done].
  2:{ intros [= <- <-]. by apply Hnone. }
  destruct (Py.get item "related" JNull) as [related|e]; [|done].
  destruct (Py.truthy related).
  - destruct (Py.getitem item "related") as [related_items|e]; [|done].
    unfold create_relationships, mbind, IO_bind, lift.
    destruct (Py.iter related_items) as [stubs|e]; [|done].
    destruct (relationships_loop_draws (ta_id actor) stubs [] w)
      as (new & w1 & ks & -> & Hids & Hks).
    intros [= <- <-]. exists ks. split; [|done].
    rewrite !relationship_ids_app, relationship_ids_relationships.
    cbn. by rewrite app_nil_r, Hids.
  - intros [= <- <-]. apply Hnone.
    rewrite relationship_ids_app. cbn. by rewrite app_nil_r.
Qed.

Lemma convert_loop_draws items stix_objects w stix_objects' w' :
  convert_loop items stix_objects w = (Ok stix_objects', w') →
  ∃ ks, relationship_ids stix_objects' =
          relationship_ids stix_objects ++ (relationship_id_at <$> ks) ∧
        drawn (draws w) (draws w') ks.
Proof.
  revert stix_objects w.
  induction items as [|item items IH]; intros stix_objects w; cbn.
  { intros [= <- <-]. exists []. rewrite app_nil_r. split; [done|].
    by apply drawn_nil. }
  unfold mbind, IO_bind.
  destruct (convert_turn item stix_objects w) as [[objs|e] w1] eqn:Eturn;
    [|done].
  apply convert_turn_draws in Eturn as (ks1 & Hids1 & Hks1).
  intros Eloop. apply IH in Eloop as (ks2 & Hids2 & Hks2).
  exists (ks1 ++ ks2). split; [|by eapply drawn_app].
  by rewrite Hids2, Hids1, fmap_app, app_assoc.
Qed.

(** X10: when [uuid4] never repeats itself, the identifiers of the
    relationships of a written bundle are pairwise distinct, and none of
    them carries the identifier drawn for the bundle. *)
Theorem relationship_ids_fresh input_file output_file w w' :
  Inj (=) (=) uuid4_at →
  convert input_file output_file w = (Ok (), w') →
  ∃ n stix_objects,
    files w' !! output_file
      = Some (Document (stix_bundle_data (uuid4_at n) stix_objects)) ∧
    NoDup (relationship_ids stix_objects) ∧
    relationship_id_at n ∉ relationship_ids stix_objects.
Proof.
  intros Hinj Hrun. apply convert_spec in Hrun as [_ Hok].
  destruct (Hok eq_refl)
    as (kvs & values & items & objs & w1 & _ & _ & _ & Eloop & _ & ->).
  apply convert_loop_draws in Eloop as (ks & Hids & Hnd & Hin & _).
  cbn in Hids.
  assert (Inj (=) (=) relationship_id_at).
  { intros k1 k2 Hk. unfold relationship_id_at in Hk.
    by apply (inj (String.app "relationship--")), Hinj in Hk. }
  exists (draws w1), objs. rewrite lookup_insert_eq, Hids.
  split; [done|]. split; [by apply NoDup_fmap_2|].
  intros Hk. apply list_elem_of_fmap_inj_2 in Hk; [|done].
  rewrite Forall_forall in Hin. apply Hin in Hk. lia.
Qed.

(** *** When a record becomes an actor *)

(** X11: a dict record with ["uuid"] and ["value"], whose metadata is a
    dict (or is missing), whose ["synonyms"] and ["refs"] can be
    sanitized and whose confidence [int] accepts, is handed to the
    constructor with exactly the arguments below.  When its ["value"]
    is neither null nor an empty list and the library accepts the
    arguments, it becomes the actor the constructor makes of them: name,
    description and aliases as [str] texts, the rest as given; else it
    is skipped. *)
Theorem actor_built kvs mkvs uuid name synonyms refs confidence :
  assoc "uuid" kvs = Some uuid →
  assoc "value" kvs = Some name →
  default (JObj []) (assoc "meta" kvs) = JObj mkvs →
  _sanitize_list (default JNull (assoc "synonyms" mkvs)) = Ok synonyms →
  _sanitize_list (default JNull (assoc "refs" mkvs)) = Ok refs →
  Py.int (default (JInt 50) (assoc "attribution-confidence" mkvs))
    = Ok confidence →
  let description :=
    default (JStr "No description available.") (assoc "description" kvs) in
  let labels :=
    (if Py.truthy (default JNull (assoc "country" mkvs))
     then ["Country: " +:+ Py.str (default JNull (assoc "country" mkvs))]
     else []) ++
    (if Py.truthy (default JNull (assoc "targeted-sector" mkvs))
     then ["Targeted Sector: " +:+
           Py.str (default JNull (assoc "targeted-sector" mkvs))]
     else []) in
  let references :=
    (λ u, {| source_name := "MISP"; url := u |}) <$> strings_of refs in
  let args :=
    {| arg_id := "threat-actor--" +:+ Py.str uuid;
       arg_name := name;
       arg_description := description;
       arg_aliases := synonyms;
       arg_labels := labels;
       arg_external_references := references;
       arg_confidence := confidence |} in
  let actor :=
    {| ta_id := "threat-actor--" +:+ Py.str uuid;
       ta_name := Py.str name;
       ta_description := stix2.string_property description;
       ta_aliases := Py.str <$> synonyms;
       ta_labels := labels;
       ta_external_references := references;
       ta_confidence := confidence |} in
  create_threat_actor (JObj kvs) =
    Ok (if negb (stix2.dropped name) && ThreatActor_accepts args
        then Some actor else None).
Proof.
  intros Hu Hv Hm Hsyn Hrefs Hint.
  assert (Hurls : omap (λ ref, if ref is JStr u
                     then Some {| source_name := "MISP"; url := u |}
                     else None) refs
                  = (λ u, {| source_name := "MISP"; url := u |})
                      <$> strings_of refs).
  { clear. induction refs as [|ref refs IH]; [done|].
    destruct ref; cbn; by rewrite ?IH. }
  unfold create_threat_actor, threat_actor_of, threat_actor_args. cbn.
  rewrite Hu, Hv, Hm. cbn. rewrite Hsyn, Hrefs, Hint. cbn. rewrite Hurls.
  unfold stix2.ThreatActor, stix2.string_property.
  destruct (assoc "country" mkvs) as [country|]; cbn;
    destruct (assoc "targeted-sector" mkvs) as [sector|]; cbn;
    repeat match goal with
    | |- context [Py.truthy ?v] => destruct (Py.truthy v); cbn
    end;
    (destruct (stix2.dropped name); [done|]; cbn;
     by destruct (ThreatActor_accepts _)).
Qed.

(** *** What a bundle holds *)

Lemma stub_edges_fields source used relationships :
  Forall2 (stub_edge source) used relationships →
  Forall (λ r, relationship_type r = "related-to" ∧
               source_ref r = source ∧ rel_confidence r = 80)
         relationships.
Proof.
  induction 1 as [|stub r used rels (? & ? & _ & _ & ? & ? & _ & _ & ?)];
    by constructor.
Qed.

Lemma blocks_relationships items blocks :
  Forall2 record_block items blocks →
  (concat blocks = [] ∨ ∃ a rest, concat blocks = SDO a :: rest) ∧
  ∀ r, SRO r ∈ concat blocks →
       relationship_type r = "related-to" ∧ rel_confidence r = 80 ∧
       ∃ a, SDO a ∈ concat blocks ∧ source_ref r = ta_id a.
Proof.
  induction 1 as [|item block items blocks Hblock _ [Hhead Hrels]].
  { split; [by left|]. intros r Hr. by apply elem_of_nil in Hr. }
  cbn [concat].
  destruct Hblock as [[_ ->] | (actor & rels & _ & -> & Hedges)]; [done|].
  split; [right; by eexists _, _|].
  intros r Hr. apply elem_of_app in Hr as [Hr | Hr].
  - apply elem_of_cons in Hr as [? | Hr]; [done|].
    apply list_elem_of_fmap in Hr as (r' & [= ->] & Hr).
    assert (Hfields : Forall (λ r, relationship_type r = "related-to" ∧
              source_ref r = ta_id actor ∧ rel_confidence r = 80) rels).
    { destruct Hedges as [-> | (? & ? & used & _ & _ & _ & Hused)];
        [constructor | by eapply stub_edges_fields]. }
    rewrite Forall_forall in Hfields.
    destruct (Hfields r' Hr) as (? & ? & ?).
    repeat split; [done..|]. exists actor. split; [|done].
    apply elem_of_app. left. by left.
  - destruct (Hrels r Hr) as (? & ? & a & Ha & ?).
    repeat split; [done..|]. exists a. split; [|done].
    apply elem_of_app. by right.
Qed.

(** X13: a written bundle starts with an actor, and every relationship
    in it has type ["related-to"], confidence 80 and, as its source,
    the identifier of an actor of the same bundle. *)
Theorem relationships_of_bundle input_file output_file w w' :
  convert input_file output_file w = (Ok (), w') →
  ∃ fresh stix_objects,
    files w' !! output_file
      = Some (Document (stix_bundle_data fresh stix_objects)) ∧
    (∃ a rest, stix_objects = SDO a :: rest) ∧
    ∀ r, SRO r ∈ stix_objects →
         relationship_type r = "related-to" ∧ rel_confidence r = 80 ∧
         ∃ a, SDO a ∈ stix_objects ∧ source_ref r = ta_id a.
Proof.
  intros Hrun. apply convert_spec in Hrun as [_ Hok].
  destruct (Hok eq_refl)
    as (kvs & values & items & objs & w1 & _ & _ & _ & Eloop & Hne & ->).
  apply convert_loop_spec in Eloop as (_ & _ & Hblocks).
  destruct (Hblocks objs eq_refl) as (blocks & -> & Hrecs).
  apply blocks_relationships in Hrecs as [[Hnil | Hhead] Hrels]; [done|].
  exists (uuid4_at (draws w1)), (concat blocks).
  by rewrite lookup_insert_eq.
Qed.

Lemma actors_relationships relationships :
  actors (map SRO relationships) = [].
Proof. by induction relationships. Qed.

Lemma blocks_actors items blocks :
  Forall2 record_block items blocks →
  actors (concat blocks) = omap built_actor items.
Proof.
  induction 1 as [|item block items blocks Hblock _ IH]; [done|].
  cbn [concat]. unfold actors in *. rewrite omap_app, IH. cbn.
  unfold built_actor at 2.
  destruct Hblock as [[-> ->] | (actor & rels & -> & -> & _)]; [done|].
  cbn. fold (actors (map SRO rels)). by rewrite actors_relationships.
Qed.

(** The actors of a written bundle are the actors built from the records
    of the input document, in the order of the records. *)
Lemma bundle_actors input_file output_file w w' :
  convert input_file output_file w = (Ok (), w') →
  ∃ kvs values items fresh stix_objects,
    files w !! input_file = Some (Document (JObj kvs)) ∧
    assoc "values" kvs = Some values ∧
    Py.iter values = Ok items ∧
    files w' !! output_file
      = Some (Document (stix_bundle_data fresh stix_objects)) ∧
    actors stix_objects = omap built_actor items.
Proof.
  intros Hrun.
  apply bundle_order_blocks in Hrun
    as (kvs & values & items & fresh & objs & blocks
        & Ef & Ev & Ei & Eout & -> & Hrecs).
  exists kvs, values, items, fresh, (concat blocks).
  by rewrite (blocks_actors items blocks).
Qed.

(** *** Loading the input *)

(** X14: [load_misp_data] returns a document exactly when the input
    path holds a JSON text whose top level is a dict with a ["values"]
    key; the document is returned as read, and loading changes
    nothing. *)
Theorem load_misp_data_accepts input_file w doc w' :
  load_misp_data input_file w = (Ok doc, w') ↔
  w' = w ∧
  files w !! input_file = Some (Document doc) ∧
  ∃ kvs, doc = JObj kvs ∧ is_Some (assoc "values" kvs).
Proof.
  unfold load_misp_data, read_json, raise, lift, mbind, IO_bind, mret, IO_ret.
  split.
  - destruct (files w !! input_file) as [[|d]|]; try done.
    destruct d as [| | | | | |kvs]; try done.
    destruct (assoc "values" kvs) eqn:Ev; [|done].
    intros [= <- <-]. split; [done|]. split; [done|].
    exists kvs. by rewrite Ev.
  - intros (-> & -> & kvs & -> & [values Ev]). by rewrite Ev.
Qed.

Lemma convert_not_a_collection input_file output_file w doc :
  files w !! input_file = Some (Document doc) →
  (∀ kvs, doc = JObj kvs → assoc "values" kvs = None) →
  convert input_file output_file w = (Raise ValueError, w).
Proof.
  intros Ef Hno.
  unfold convert, io_try, load_misp_data, read_json, raise, lift.
  unfold mbind, IO_bind, mret, IO_ret. rewrite Ef.
  destruct doc as [| | | | | |kvs]; try done.
  by rewrite (Hno kvs eq_refl).
Qed.

(** X15: [convert] fails before it builds anything, and leaves the world
    as it was, when the input cannot be used: [IOError] for a missing
    file, the error raised by reading and parsing for a file that
    cannot be loaded, whichever it is, [ValueError] for a top level
    that is no dict or has no ["values"], [TypeError] for a ["values"]
    that cannot be iterated. *)
Theorem convert_load_failure input_file output_file w :
  (files w !! input_file = None →
   convert input_file output_file w = (Raise IOError, w)) ∧
  (∀ e, files w !! input_file = Some (Unparsable e) →
        convert input_file output_file w = (Raise e, w)) ∧
  (∀ doc, files w !! input_file = Some (Document doc) →
          (∀ kvs, doc = JObj kvs → assoc "values" kvs = None) →
          convert input_file output_file w = (Raise ValueError, w)) ∧
  (∀ kvs values, files w !! input_file = Some (Document (JObj kvs)) →
          assoc "values" kvs = Some values →
          Py.iter values = Raise TypeError →
          convert input_file output_file w = (Raise TypeError, w)).
Proof.
  repeat split.
  - intros Ef.
    unfold convert, io_try, load_misp_data, read_json, raise, lift.
    unfold mbind, IO_bind, mret, IO_ret. by rewrite Ef.
  - intros e Ef.
    unfold convert, io_try, load_misp_data, read_json, raise, lift.
    unfold mbind, IO_bind, mret, IO_ret. by rewrite Ef.
  - apply convert_not_a_collection.
  - intros kvs values Ef Ev Ei.
    unfold convert, io_try, load_misp_data, read_json, raise, lift.
    unfold mbind, IO_bind, mret, IO_ret.
    rewrite Ef, Ev. cbn. rewrite Ev. cbn. by rewrite Ei.
Qed.

(** *** The outcome of a run *)

Lemma convert_loop_Raise items stix_objects w e w' :
  convert_loop items stix_objects w = (Raise e, w') →
  e = AttributeError ∨ e = TypeError.
Proof.
  revert stix_objects w.
  induction items as [|item items IH]; intros stix_objects w; [done|].
  cbn. unfold mbind, IO_bind.
  destruct (convert_turn item stix_objects w) as [[objs|e1] w1] eqn:Eturn;
    [by apply IH|].
  intros [= <- <-]. revert Eturn.
  unfold convert_turn, mbind, IO_bind, lift, mret, IO_ret.
  destruct (create_threat_actor item) as [[actor|]|e1'] eqn:Eactor; [|done|].
  2:{ intros [= <- <-]. left.
      by apply create_threat_actor_Raise in Eactor as [-> _]. }
  apply create_threat_actor_Some, threat_actor_of_Some in Eactor
    as (kvs & _ & _ & _ & -> & _).
  cbn. destruct (assoc "related" kvs) as [related|]; [|done].
  cbn. destruct (Py.truthy related); [|done].
  destruct (create_relationships _ related w) as [[rels|e2] w2] eqn:Ecr; [done|].
  intros [= <- <-]. right.
  by apply create_relationships_Raise in Ecr as (-> & _).
Qed.

(** X16: whatever a run of [convert] does, it leaves every path other
    than the output path, and the set of unwritable paths, as they
    were.  When it fails, all files are as they were; when it succeeds,
    the output path holds a bundle dict with at least one object. *)
Theorem convert_outcome input_file output_file w r w' :
  convert input_file output_file w = (r, w') →
  locked w' = locked w ∧
  (∀ path, path ≠ output_file → files w' !! path = files w !! path) ∧
  match r with
  | Raise _ => files w' = files w
  | Ok _ =>
      ∃ n stix_objects,
        stix_objects ≠ [] ∧
        files w' !! output_file
          = Some (Document (stix_bundle_data (uuid4_at n) stix_objects))
  end.
Proof.
  unfold convert, io_try, load_misp_data, read_json, raise, lift.
  unfold mbind, IO_bind, mret, IO_ret.
  destruct (files w !! input_file) as [[|doc]|];
    try (intros [= <- <-]; by repeat split).
  destruct doc as [| | | | | |kvs]; try (intros [= <- <-]; by repeat split).
  destruct (assoc "values" kvs) as [values|] eqn:Evalues;
    [|intros [= <- <-]; by repeat split].
  cbn. rewrite Evalues. cbn.
  destruct (Py.iter values) as [items|e];
    [|intros [= <- <-]; by repeat split].
  destruct (convert_loop items [] w) as [[objs|e] w1] eqn:Eloop;
    apply convert_loop_spec in Eloop as (Hf & Hl & _).
  2:{ intros [= <- <-]. split; [done|]. split; [|done].
      intros. by rewrite Hf. }
  destruct objs as [|o objs].
  { intros [= <- <-]. split; [done|]. split; [|done]. intros. by rewrite Hf. }
  unfold uuid4, write_json. cbn.
  destruct (bool_decide _); intros [= <- <-]; cbn.
  - split; [done|]. split; [|done]. intros. by rewrite Hf.
  - split; [done|]. split.
    + intros path Hpath. by rewrite lookup_insert_ne, Hf.
    + exists (draws w1), (o :: objs). by rewrite lookup_insert_eq.
Qed.

(** X17: the bundle a run writes is no input for another run: [convert]
    on the output of a successful [convert] raises [ValueError] and
    changes nothing. *)
Theorem convert_rejects_own_output input_file output_file w w' :
  convert input_file output_file w = (Ok (), w') →
  ∀ output_file', convert output_file output_file' w' = (Raise ValueError, w').
Proof.
  intros Hrun output'. apply convert_spec in Hrun as [_ Hok].
  destruct (Hok eq_refl)
    as (kvs & values & items & objs & w1 & _ & _ & _ & _ & _ & Hfiles).
  eapply convert_not_a_collection.
  - rewrite Hfiles. apply lookup_insert_eq.
  - by intros ? [= <-].
Qed.

(** X18: a run of [convert] that fails ends with the error that
    reading and parsing the input raised, or with [IOError],
    [ValueError], [TypeError] or [AttributeError]; what the library, a
    missing key or a number raise while a record or a stub is handled
    is always absorbed as a skip. *)
Theorem convert_error_kinds input_file output_file w e w' :
  convert input_file output_file w = (Raise e, w') →
  files w !! input_file = Some (Unparsable e) ∨
  e ∈ [IOError; ValueError; TypeError; AttributeError].
Proof.
  unfold convert, io_try, load_misp_data, read_json, raise, lift.
  unfold mbind, IO_bind, mret, IO_ret.
  destruct (files w !! input_file) as [[e0|doc]|];
    [by intros [= <- <-]; left| |intros [= <- <-]; right; set_solver].
  intros Hrun. right. revert Hrun.
  destruct doc as [| | | | | |kvs]; try (intros [= <- <-]; set_solver).
  destruct (assoc "values" kvs) as [values|] eqn:Evalues;
    [|intros [= <- <-]; set_solver].
  cbn. rewrite Evalues. cbn.
  destruct (Py.iter values) as [items|e'] eqn:Ei.
  2:{ intros [= <- <-]. destruct values; simplify_eq/=; set_solver. }
  destruct (convert_loop items [] w) as [[objs|e'] w1] eqn:Eloop.
  2:{ intros [= <- <-].
      apply convert_loop_Raise in Eloop as [-> | ->]; set_solver. }
  destruct objs as [|o objs]; [intros [= <- <-]; set_solver|].
  unfold uuid4, write_json. cbn.
  destruct (bool_decide _); intros [= <- <-]. set_solver.
Qed.

(** X19: [convert] succeeds whenever the input document is a dict whose
    ["values"] can be iterated, the loop over the records ends with at
    least one object and the output path can be written; it then holds
    the bundle of these objects under the next identifier drawn, and
    nothing else has changed. *)
Theorem convert_succeeds input_file output_file w kvs values items
    stix_objects w1 :
  files w !! input_file = Some (Document (JObj kvs)) →
  assoc "values" kvs = Some values →
  Py.iter values = Ok items →
  convert_loop items [] w = (Ok stix_objects, w1) →
  stix_objects ≠ [] →
  output_file ∉ locked w →
  convert input_file output_file w =
    (Ok (),
     {| files := <[output_file :=
                    Document (stix_bundle_data (uuid4_at (draws w1))
                                               stix_objects)]> (files w);
        locked := locked w;
        draws := S (draws w1) |}).
Proof.
  intros Ef Ev Ei Eloop Hne Hfree.
  unfold convert, io_try, load_misp_data, read_json, raise, lift.
  unfold mbind, IO_bind, mret, IO_ret.
  rewrite Ef, Ev. cbn. rewrite Ev. cbn. rewrite Ei, Eloop.
  apply convert_loop_spec in Eloop as (Hf & Hl & _).
  destruct stix_objects as [|o objs]; [done|].
  unfold uuid4, write_json. cbn.
  rewrite bool_decide_eq_false_2 by by rewrite Hl.
  by rewrite Hf, Hl.
Qed.

(** X20: [main] fails with [IOError] and changes nothing when there is
    no [misp_data.json], and whatever it does it leaves every path
    other than [stix_output_2_0.json] as it was. *)
Theorem main_reads_and_writes w :
  (files w !! "misp_data.json" = None → main w = (Raise IOError, w)) ∧
  ∀ r w', main w = (r, w') →
    ∀ path, path ≠ "stix_output_2_0.json" →
            files w' !! path = files w !! path.
Proof.
  split.
  - intros Ef. unfold main, convert, io_try, load_misp_data, read_json.
    unfold raise, lift, mbind, IO_bind, mret, IO_ret. by rewrite Ef.
  - intros r w' Hrun path Hpath. unfold main in Hrun.
    destruct r as [[]|e]; apply convert_spec in Hrun as [Herr Hok].
    + destruct (Hok eq_refl) as (? & ? & ? & ? & ? & _ & _ & _ & _ & _ & ->).
      by rewrite lookup_insert_ne.
    + by rewrite (Herr e eq_refl).
Qed.

End Properties.

(** *** Two runs on one document *)

Lemma create_threat_actor_agree `{Py.Interpreter} (S1 S2 : Stix2) item :
  (∀ kw, @ThreatActor_accepts S1 kw = @ThreatActor_accepts S2 kw) →
  @create_threat_actor _ S1 item = @create_threat_actor _ S2 item.
Proof.
  intros Hagree. unfold create_threat_actor, threat_actor_of.
  destruct (threat_actor_args item) as [[kw|]|e]; cbn; [|done..].
  unfold stix2.ThreatActor. by rewrite Hagree.
Qed.

(** X21: two successful runs on the same input document write bundles
    whose actors have the same identifier, name, description, aliases,
    labels, references and confidence, in the same order, whatever the
    identifiers [uuid4] hands out in each, whatever else the two worlds
    hold and whatever the library stamps on the objects of each; the
    library is only taken to accept the same actors in both. *)
Theorem actors_repeatable `{Py.Interpreter} (S1 S2 : Stix2) (U1 U2 : Uuid4)
    input_file output1 output2 w1 w2 w1' w2' :
  (∀ kw, @ThreatActor_accepts S1 kw = @ThreatActor_accepts S2 kw) →
  files w1 !! input_file = files w2 !! input_file →
  @convert _ S1 U1 input_file output1 w1 = (Ok (), w1') →
  @convert _ S2 U2 input_file output2 w2 = (Ok (), w2') →
  ∃ fresh1 objects1 fresh2 objects2,
    files w1' !! output1
      = Some (Document (@stix_bundle_data S1 fresh1 objects1)) ∧
    files w2' !! output2
      = Some (Document (@stix_bundle_data S2 fresh2 objects2)) ∧
    actors objects1 = actors objects2.
Proof.
  intros Hagree Hsame Hrun1 Hrun2.
  apply bundle_actors in Hrun1
    as (kvs1 & values1 & items1 & fresh1 & objs1 & Ef1 & Ev1 & Ei1 & Eo1 & Ha1).
  apply bundle_actors in Hrun2
    as (kvs2 & values2 & items2 & fresh2 & objs2 & Ef2 & Ev2 & Ei2 & Eo2 & Ha2).
  assert (items1 = items2) as -> by congruence.
  exists fresh1, objs1, fresh2, objs2. rewrite Ha1, Ha2.
  split; [done|]. split; [done|].
  clear -Hagree. unfold built_actor.
  induction items2 as [|item items IH]; [done|]. cbn.
  by rewrite (create_threat_actor_agree S1 S2 item Hagree), IH.
Qed.

(** ** Runs on concrete documents *)

Import Fixture.

Example int_examples :
  Py.int (JStr " 90 ") = Ok 90 ∧ Py.int (JStr "-1_000") = Ok (-1000) ∧
  Py.int (JStr "high") = Raise ValueError ∧ Py.int (JStr "") = Raise ValueError ∧
  Py.int (JStr "1__0") = Raise ValueError ∧ Py.int (JStr "+ 5") = Raise ValueError ∧
  Py.int (JFloat (S754_finite true 7 (-1))) = Ok (-3) ∧
  Py.int (JBool true) = Ok 1 ∧ Py.int JNull = Raise TypeError ∧
  Py.int (JStr (String "028" "5")) = Raise ValueError ∧
  Py.int (JStr (String "011" "5")) = Ok 5.
Proof. repeat split; reflexivity. Qed.

Example end_to_end :
  convert_loop [apt_x] [] (world (document [apt_x])) =
    (Ok [SDO apt_x_actor; SRO apt_x_edge],
     {| files := files (world (document [apt_x]));
        locked := ∅; draws := 1%nat |}) ∧
  (run (document [apt_x])).1 = Ok () ∧
  files (run (document [apt_x])).2 !! "stix_output_2_0.json" =
    Some (Document (stix_bundle_data "1" [SDO apt_x_actor; SRO apt_x_edge])).
Proof. repeat split; reflexivity. Qed.

Lemma actor_id_from_uuid_witness :
  Py.getitem apt_x "uuid" = Ok (JStr "a1") ∧
  create_threat_actor apt_x = Ok (Some apt_x_actor) ∧
  ta_id apt_x_actor = "threat-actor--" +:+ "a1".
Proof.
  split; [reflexivity|]. split; [reflexivity|].
  apply (actor_id_from_uuid apt_x "a1" apt_x_actor); reflexivity.
Defined.

(** C2 at a failing document: the second record is a dict with a usable
    identity whose ["related"] is the number 5.  Its actor is built, the
    loop over ["related"] raises [TypeError] outside every [try], and
    [convert] ends with that error and writes nothing, although the first
    record alone converts.  A record that is no dict at all (here the
    number 5) ends [convert] too, with the [AttributeError] of the
    [except] branch. *)
Theorem bad_record_aborts :
  (run (document [apt_y])).1 = Ok () ∧
  (run (document [apt_y; apt_z_related_5])).1 = Raise TypeError ∧
  files (run (document [apt_y; apt_z_related_5])).2
    !! "stix_output_2_0.json" = None ∧
  (run (document [apt_y; JInt 5])).1 = Raise AttributeError.
Proof. repeat split; reflexivity. Qed.

(** C3 as stated fails: ["attribution-confidence": "high"] is rejected by
    [int], and the record is skipped instead of getting confidence 50. *)
Lemma unparsable_confidence_skips :
  Py.int (JStr "high") = Raise ValueError ∧
  create_threat_actor (record uuid_y "APT-Y" [("meta", JObj confidence_high)])
    = Ok None.
Proof. split; reflexivity. Qed.

Lemma confidence_of_actor_witness :
  (create_threat_actor apt_y = Ok (Some (actor uuid_y "APT-Y"
       (Some "No description available.") 50)) ∧
   ta_confidence (actor uuid_y "APT-Y" (Some "No description available.") 50)
     = 50) ∧
  (create_threat_actor (record uuid_y "APT-Y" [("meta", JObj confidence_90)])
     = Ok (Some (actor uuid_y "APT-Y" (Some "No description available.") 90)) ∧
   ta_confidence (actor uuid_y "APT-Y" (Some "No description available.") 90)
     = 90) ∧
  create_threat_actor (record uuid_y "APT-Y" [("meta", JObj confidence_high)])
    = Ok None.
Proof.
  split; [|split].
  - split; [reflexivity|].
    destruct (confidence_of_actor apt_y (JObj []) eq_refl) as (Habsent & _).
    apply Habsent; reflexivity.
  - split; [reflexivity|].
    destruct (confidence_of_actor
                (record uuid_y "APT-Y" [("meta", JObj confidence_90)])
                (JObj confidence_90) eq_refl) as (_ & Hgiven & _).
    apply Hgiven; reflexivity.
  - destruct (confidence_of_actor
                (record uuid_y "APT-Y" [("meta", JObj confidence_high)])
                (JObj confidence_high) eq_refl) as (_ & _ & Hskip).
    apply (Hskip (JStr "high") ValueError); reflexivity.
Defined.

(** C4 at a failing input: [_sanitize_list] raises on the number 5, and
    a record whose metadata has ["synonyms": 5] is skipped for it. *)
Theorem sanitize_list_number :
  _sanitize_list (JInt 5) = Raise TypeError ∧
  create_threat_actor apt_z_synonyms_5 = Ok None.
Proof. split; reflexivity. Qed.

Lemma missing_identity_skipped_witness :
  (assoc "uuid" nameless = None ∨ assoc "value" nameless = None) ∧
  create_threat_actor (JObj nameless) = Ok None ∧
  convert_loop ([apt_x] ++ JObj nameless :: [apt_y]) [] (world JNull) =
  convert_loop ([apt_x] ++ [apt_y]) [] (world JNull).
Proof.
  split; [right; reflexivity|].
  destruct (missing_identity_skipped nameless) as [Hskip Hbatch];
    [right; reflexivity|].
  split; [exact Hskip | apply Hbatch].
Defined.

Example three_records_middle_nameless :
  (convert_loop [apt_x; JObj nameless; apt_y] [] (world JNull)).1 =
  Ok [SDO apt_x_actor; SRO apt_x_edge;
      SDO (actor uuid_y "APT-Y" (Some "No description available.") 50)].
Proof. reflexivity. Qed.

Example partial_success :
  (create_relationships "threat-actor--a1" (JArr stubs) (world JNull)).1 =
  Ok [{| rel_id := "relationship--0";
         relationship_type := "related-to";
         source_ref := "threat-actor--a1";
         target_ref := "threat-actor--" +:+ uuid_y;
         rel_description := "Relationship type: similar";
         rel_confidence := 80 |};
      {| rel_id := "relationship--2";
         relationship_type := "related-to";
         source_ref := "threat-actor--a1";
         target_ref := "threat-actor--" +:+ uuid_z;
         rel_description := "Relationship type: uses";
         rel_confidence := 80 |}].
Proof. reflexivity. Qed.

Lemma create_relationships_partial_witness :
  ∃ outcomes w',
    create_relationships "threat-actor--a1" (JArr stubs) (world JNull)
      = (Ok (concat outcomes), w') ∧
    Forall2 (stub_outcome "threat-actor--a1") stubs outcomes.
Proof.
  exact (create_relationships_partial "threat-actor--a1" stubs (world JNull)).
Defined.

(** C6 as stated fails: under a library that checks the form of
    identifiers, the stub of the specification's own example has both
    keys and gives no edge, its target ["threat-actor--b2"] being
    rejected, while a stub with a well-formed target gives one. *)
Lemma rejected_stub_gives_no_edge :
  stub_ok (JObj [("dest-uuid", JStr "b2"); ("type", JStr "uses")]) = true ∧
  (create_relationships (H0 := strict) (H1 := uuid_counter)
     ("threat-actor--" +:+ uuid_y)
     (JArr [JObj [("dest-uuid", JStr "b2"); ("type", JStr "uses")]])
     (world JNull)).1 = Ok [] ∧
  (create_relationships (H0 := strict) (H1 := uuid_counter)
     ("threat-actor--" +:+ uuid_y)
     (JArr [JObj [("dest-uuid", JStr uuid_z); ("type", JStr "uses")]])
     (world JNull)).1 =
    Ok [{| rel_id := "relationship--00000000-0000-4000-8000-000000000000";
           relationship_type := "related-to";
           source_ref := "threat-actor--" +:+ uuid_y;
           target_ref := "threat-actor--" +:+ uuid_z;
           rel_description := "Relationship type: uses";
           rel_confidence := 80 |}].
Proof. repeat split; reflexivity. Qed.

Lemma empty_result_guard_witness :
  convert "misp_data.json" "stix_output_2_0.json" (world (document []))
    = (Raise ValueError, world (document [])) ∧
  files (world (document [])) !! "stix_output_2_0.json" = None.
Proof.
  split; [|reflexivity].
  apply (empty_result_guard "misp_data.json" "stix_output_2_0.json"
           (world (document [])) [("values", JArr [])] (JArr []) []);
    reflexivity.
Defined.


(** C9 as stated fails: two records with one ["uuid"] give two actors
    with one identifier, both in the written bundle. *)
Lemma twin_records_share_identifier :
  ∃ fresh stix_objects,
    files (run (document [apt_y; apt_y_twin])).2 !! "stix_output_2_0.json"
      = Some (Document (stix_bundle_data fresh stix_objects)) ∧
    ¬ NoDup (actor_ids stix_objects).
Proof.
  exists "0",
    [SDO (actor uuid_y "APT-Y" (Some "No description available.") 50);
     SDO (actor uuid_y "APT-Y (alias)" (Some "No description available.") 50)].
  split; [reflexivity|].
  intros Hdistinct. apply NoDup_cons in Hdistinct as [Hfresh _].
  apply Hfresh. by left.
Qed.

Lemma actor_ids_distinct_witness :
  NoDup (omap record_uuid [apt_y; apt_z]) ∧
  ∃ fresh stix_objects,
    files (run (document [apt_y; apt_z])).2 !! "stix_output_2_0.json"
      = Some (Document (stix_bundle_data fresh stix_objects)) ∧
    NoDup (actor_ids stix_objects).
Proof.
  assert (Hdistinct : NoDup (omap record_uuid [apt_y; apt_z])).
  { apply NoDup_cons. split; [|apply NoDup_singleton].
    intros Hin. apply list_elem_of_singleton in Hin. discriminate Hin. }
  split; [exact Hdistinct|].
  apply (actor_ids_distinct "misp_data.json" "stix_output_2_0.json"
           (world (document [apt_y; apt_z])) _
           [("values", JArr [apt_y; apt_z])] (JArr [apt_y; apt_z])
           [apt_y; apt_z]); try reflexivity.
  exact Hdistinct.
Defined.

(** C10 as stated fails: a stored null is no description of the built
    actor, which has none, and a stored 5 becomes the text "5". *)
Lemma stored_description_not_kept :
  Py.getitem apt_z_null_description "description" = Ok JNull ∧
  create_threat_actor apt_z_null_description
    = Ok (Some (actor uuid_z "APT-Z" None 50)) ∧
  Py.getitem (record uuid_z "APT-Z" [("description", JInt 5)]) "description"
    = Ok (JInt 5) ∧
  create_threat_actor (record uuid_z "APT-Z" [("description", JInt 5)])
    = Ok (Some (actor uuid_z "APT-Z" (Some "5") 50)).
Proof. repeat split; reflexivity. Qed.

Lemma description_of_actor_witness :
  (create_threat_actor (record uuid_z "APT-Z" [("description", JStr "")])
     = Ok (Some (actor uuid_z "APT-Z" (Some "") 50)) ∧
   ta_description (actor uuid_z "APT-Z" (Some "") 50) = Some "") ∧
  (create_threat_actor apt_z_null_description
     = Ok (Some (actor uuid_z "APT-Z" None 50)) ∧
   ta_description (actor uuid_z "APT-Z" None 50) = None) ∧
  (create_threat_actor apt_z
     = Ok (Some (actor uuid_z "APT-Z" (Some "No description available.") 50)) ∧
   ta_description (actor uuid_z "APT-Z" (Some "No description available.") 50)
     = Some "No description available.").
Proof.
  split; [|split]; (split; [reflexivity|]).
  - assert (Hbuilt :
      create_threat_actor (record uuid_z "APT-Z" [("description", JStr "")])
        = Ok (Some (actor uuid_z "APT-Z" (Some "") 50))) by reflexivity.
    destruct (description_of_actor _ _ Hbuilt) as (Hstring & _).
    apply Hstring. reflexivity.
  - assert (Hbuilt : create_threat_actor apt_z_null_description
        = Ok (Some (actor uuid_z "APT-Z" None 50))) by reflexivity.
    destruct (description_of_actor _ _ Hbuilt) as (_ & Hdropped & _).
    apply (Hdropped JNull); reflexivity.
  - assert (Hbuilt : create_threat_actor apt_z
        = Ok (Some (actor uuid_z "APT-Z"
                      (Some "No description available.") 50))) by reflexivity.
    destruct (description_of_actor _ _ Hbuilt) as (_ & _ & _ & Habsent).
    apply Habsent. reflexivity.
Defined.

Lemma labels_of_actor_witness :
  create_threat_actor apt_y_full = Ok (Some apt_y_full_actor) ∧
  ta_labels apt_y_full_actor = ["Country: RU"].
Proof.
  split; [reflexivity|].
  apply (labels_of_actor apt_y_full apt_y_full_actor (JObj meta_full)
           (JStr "RU") (JStr "")); reflexivity.
Defined.

Lemma external_references_of_actor_witness :
  create_threat_actor apt_y_full = Ok (Some apt_y_full_actor) ∧
  ∃ refs,
    _sanitize_list
      (JArr [JStr "https://a.example"; JInt 3; JStr "https://b.example"])
      = Ok refs ∧
    url <$> ta_external_references apt_y_full_actor = strings_of refs ∧
    Forall (λ e, source_name e = "MISP")
           (ta_external_references apt_y_full_actor).
Proof.
  split; [reflexivity|].
  apply (external_references_of_actor apt_y_full apt_y_full_actor
           (JObj meta_full)); reflexivity.
Defined.

Lemma name_and_aliases_of_actor_witness :
  create_threat_actor numbered = Ok (Some numbered_actor) ∧
  (∃ value, Py.getitem numbered "value" = Ok value ∧
            stix2.dropped value = false ∧
            ta_name numbered_actor = Py.str value) ∧
  ta_aliases numbered_actor = Py.str <$> [JInt 5; JStr "x"].
Proof.
  split; [reflexivity|].
  assert (Hbuilt : create_threat_actor numbered = Ok (Some numbered_actor))
    by reflexivity.
  destruct (name_and_aliases_of_actor numbered numbered_actor Hbuilt)
    as [Hname Haliases].
  split; [exact Hname|].
  apply (Haliases (JObj [("synonyms", JArr [JInt 5; JStr "x"])])
           (JArr [JInt 5; JStr "x"])); reflexivity.
Defined.

Lemma meta_not_dict_skips_witness :
  assoc "meta" apt_z_meta_null = Some JNull ∧
  create_threat_actor (JObj apt_z_meta_null) = Ok None.
Proof.
  split; [reflexivity|].
  apply (meta_not_dict_skips apt_z_meta_null JNull); [reflexivity | exact I].
Defined.

Lemma actor_without_meta_witness :
  create_threat_actor (JObj [("uuid", JStr uuid_z); ("value", JInt 5)]) =
    Ok (Some (actor uuid_z "5" (Some "No description available.") 50)) ∧
  create_threat_actor (JObj [("uuid", JStr uuid_z); ("value", JNull)]) =
    Ok None.
Proof.
  split.
  - exact (actor_without_meta
             [("uuid", JStr uuid_z); ("value", JInt 5)]
             (JStr uuid_z) (JInt 5) eq_refl eq_refl eq_refl).
  - exact (actor_without_meta
             [("uuid", JStr uuid_z); ("value", JNull)]
             (JStr uuid_z) JNull eq_refl eq_refl eq_refl).
Defined.

Lemma create_threat_actor_outcomes_witness :
  create_threat_actor (JStr "uuid and value") = Raise AttributeError ∧
  AttributeError = AttributeError.
Proof.
  split; [reflexivity|].
  destruct (create_threat_actor_outcomes (JStr "uuid and value"))
    as [Hraise _].
  assert (Hrun : create_threat_actor (JStr "uuid and value")
                 = Raise AttributeError) by reflexivity.
  destruct (Hraise AttributeError Hrun) as [Hkind _]. exact Hkind.
Defined.

Lemma related_scalar_witness :
  convert_turn (apt_y_related (JInt 0)) [] (world JNull) =
    (Ok [SDO (actor uuid_y "APT-Y" (Some "No description available.") 50)],
     world JNull) ∧
  convert_turn (apt_y_related (JBool true)) [] (world JNull) =
    (Raise TypeError, world JNull).
Proof.
  split.
  - apply (related_scalar (apt_y_related (JInt 0))
             (actor uuid_y "APT-Y" (Some "No description available.") 50)
             (JInt 0) [] (world JNull)); reflexivity.
  - apply (related_scalar (apt_y_related (JBool true))
             (actor uuid_y "APT-Y" (Some "No description available.") 50)
             (JBool true) [] (world JNull)); reflexivity.
Defined.

Lemma related_not_a_list_witness :
  ∃ w', create_relationships "threat-actor--a1"
          (JObj [("dest-uuid", JStr uuid_y); ("type", JStr "uses")])
          (world JNull) = (Ok [], w') ∧
        files w' = files (world JNull).
Proof.
  apply (related_not_a_list "threat-actor--a1"
           (JObj [("dest-uuid", JStr uuid_y); ("type", JStr "uses")])
           (world JNull)).
  exact I.
Defined.

Lemma create_relationships_raises_witness :
  Py.iter (JInt 5) = Raise TypeError ∧
  create_relationships "threat-actor--a1" (JInt 5) (world JNull)
    = (Raise TypeError, world JNull).
Proof.
  split; [reflexivity|].
  destruct (create_relationships_raises "threat-actor--a1" (JInt 5)
              (world JNull)) as [Hraises _].
  apply Hraises. reflexivity.
Defined.

Lemma counter_inj : Inj (=) (=) (uuid4_at (Uuid4 := counter)).
Proof. intros m n Hmn. by apply (inj pretty) in Hmn. Defined.

Lemma relationship_ids_fresh_witness :
  convert "misp_data.json" "stix_output_2_0.json" (world (document linked))
    = (Ok (), (run (document linked)).2) ∧
  ∃ n stix_objects,
    files (run (document linked)).2 !! "stix_output_2_0.json"
      = Some (Document (stix_bundle_data (uuid4_at n) stix_objects)) ∧
    NoDup (relationship_ids stix_objects) ∧
    relationship_id_at n ∉ relationship_ids stix_objects.
Proof.
  split; [reflexivity|].
  apply (relationship_ids_fresh "misp_data.json" "stix_output_2_0.json"
           (world (document linked))); [exact counter_inj | reflexivity].
Defined.

Example linked_bundle :
  ∃ stix_objects w',
    convert_loop linked [] (world JNull) = (Ok stix_objects, w') ∧
    draws w' = 4%nat ∧
    relationship_ids stix_objects
      = ["relationship--0"; "relationship--1"; "relationship--3"] ∧
    actor_ids stix_objects
      = ["threat-actor--" +:+ uuid_y; "threat-actor--" +:+ uuid_z].
Proof.
  destruct (convert_loop linked [] (world JNull)) as [r w'] eqn:Erun.
  vm_compute in Erun. injection Erun as <- <-.
  eexists _, _. split; [reflexivity|]. by repeat split.
Qed.

Lemma relationships_of_bundle_witness :
  convert "misp_data.json" "stix_output_2_0.json" (world (document linked))
    = (Ok (), (run (document linked)).2) ∧
  ∃ fresh stix_objects,
    files (run (document linked)).2 !! "stix_output_2_0.json"
      = Some (Document (stix_bundle_data fresh stix_objects)) ∧
    (∃ a rest, stix_objects = SDO a :: rest) ∧
    ∀ r, SRO r ∈ stix_objects →
         relationship_type r = "related-to" ∧ rel_confidence r = 80 ∧
         ∃ a, SDO a ∈ stix_objects ∧ source_ref r = ta_id a.
Proof.
  split; [reflexivity|].
  apply (relationships_of_bundle "misp_data.json" "stix_output_2_0.json"
           (world (document linked))).
  reflexivity.
Defined.

Lemma actors_repeatable_witness :
  ∃ fresh1 objects1 fresh2 objects2,
    files (run (document linked)).2 !! "stix_output_2_0.json"
      = Some (Document (stix_bundle_data fresh1 objects1)) ∧
    files (convert (H0 := lenient_at "2026-01-01T00:00:00")
             (H1 := counter_from_100) "misp_data.json" "second.json"
             (world (document linked))).2 !! "second.json"
      = Some (Document
                (stix_bundle_data (H0 := lenient_at "2026-01-01T00:00:00")
                   fresh2 objects2)) ∧
    actors objects1 = actors objects2.
Proof.
  apply (actors_repeatable lenient (lenient_at "2026-01-01T00:00:00")
           counter counter_from_100 "misp_data.json"
           "stix_output_2_0.json" "second.json"
           (world (document linked)) (world (document linked)));
    reflexivity.
Defined.

Example stamps_differ :
  files (run (document [apt_y])).2 !! "stix_output_2_0.json" ≠
  files (convert (H0 := lenient_at "2026-01-01T00:00:00")
           "misp_data.json" "stix_output_2_0.json"
           (world (document [apt_y]))).2 !! "stix_output_2_0.json".
Proof. vm_compute. discriminate. Qed.

Lemma load_misp_data_accepts_witness :
  load_misp_data "misp_data.json" (world (document [apt_y]))
    = (Ok (document [apt_y]), world (document [apt_y])).
Proof.
  apply (load_misp_data_accepts "misp_data.json" (world (document [apt_y]))).
  split; [reflexivity|]. split; [reflexivity|].
  exists [("values", JArr [apt_y])]. split; [reflexivity|].
  exists (JArr [apt_y]). reflexivity.
Defined.

Lemma convert_load_failure_witness :
  convert "absent.json" "stix_output_2_0.json" (world JNull)
    = (Raise IOError, world JNull) ∧
  convert "misp_data.json" "stix_output_2_0.json"
    {| files := {["misp_data.json" := Unparsable RecursionError]};
       locked := ∅; draws := 0 |}
    = (Raise RecursionError,
       {| files := {["misp_data.json" := Unparsable RecursionError]};
          locked := ∅; draws := 0 |}) ∧
  convert "misp_data.json" "stix_output_2_0.json" (world (JArr [apt_y]))
    = (Raise ValueError, world (JArr [apt_y])) ∧
  convert "misp_data.json" "stix_output_2_0.json"
    (world (JObj [("values", JInt 1)]))
    = (Raise TypeError, world (JObj [("values", JInt 1)])).
Proof.
  split; [|split; [|split]].
  - destruct (convert_load_failure "absent.json" "stix_output_2_0.json"
                (world JNull)) as (Hmissing & _).
    apply Hmissing. reflexivity.
  - destruct (convert_load_failure "misp_data.json" "stix_output_2_0.json"
                {| files := {["misp_data.json" := Unparsable RecursionError]};
                   locked := ∅; draws := 0 |}) as (_ & Hload & _).
    apply Hload. reflexivity.
  - destruct (convert_load_failure "misp_data.json" "stix_output_2_0.json"
                (world (JArr [apt_y]))) as (_ & _ & Hshape & _).
    apply (Hshape (JArr [apt_y])); [reflexivity | discriminate].
  - destruct (convert_load_failure "misp_data.json" "stix_output_2_0.json"
                (world (JObj [("values", JInt 1)]))) as (_ & _ & _ & Hiter).
    apply (Hiter [("values", JInt 1)] (JInt 1)); reflexivity.
Defined.

Lemma convert_outcome_witness :
  locked (run (document [apt_x])).2 = locked (world (document [apt_x])) ∧
  (∀ path, path ≠ "stix_output_2_0.json" →
     files (run (document [apt_x])).2 !! path
       = files (world (document [apt_x])) !! path) ∧
  ∃ n stix_objects,
    stix_objects ≠ [] ∧
    files (run (document [apt_x])).2 !! "stix_output_2_0.json"
      = Some (Document (stix_bundle_data (uuid4_at n) stix_objects)).
Proof.
  apply (convert_outcome "misp_data.json" "stix_output_2_0.json"
           (world (document [apt_x])) (Ok ())).
  reflexivity.
Defined.

Lemma convert_rejects_own_output_witness :
  convert "stix_output_2_0.json" "again.json" (run (document [apt_x])).2
    = (Raise ValueError, (run (document [apt_x])).2).
Proof.
  apply (convert_rejects_own_output "misp_data.json" "stix_output_2_0.json"
           (world (document [apt_x]))).
  reflexivity.
Defined.

Lemma convert_error_kinds_witness :
  convert "misp_data.json" "stix_output_2_0.json"
    (world (document [apt_y; apt_z_related_5]))
    = (Raise TypeError, world (document [apt_y; apt_z_related_5])) ∧
  (files (world (document [apt_y; apt_z_related_5])) !! "misp_data.json"
     = Some (Unparsable TypeError) ∨
   TypeError ∈ [IOError; ValueError; TypeError; AttributeError]).
Proof.
  split; [reflexivity|].
  apply (convert_error_kinds "misp_data.json" "stix_output_2_0.json"
           (world (document [apt_y; apt_z_related_5])) TypeError
           (world (document [apt_y; apt_z_related_5]))).
  reflexivity.
Defined.

Lemma convert_succeeds_witness :
  convert "misp_data.json" "stix_output_2_0.json" (world (document [apt_x])) =
    (Ok (),
     {| files :=
          <["stix_output_2_0.json" :=
              Document (stix_bundle_data (uuid4_at 1)
                          [SDO apt_x_actor; SRO apt_x_edge])]>
            (files (world (document [apt_x])));
        locked := ∅;
        draws := 2 |}).
Proof.
  apply (convert_succeeds "misp_data.json" "stix_output_2_0.json"
           (world (document [apt_x])) [("values", JArr [apt_x])]
           (JArr [apt_x]) [apt_x] [SDO apt_x_actor; SRO apt_x_edge]
           {| files := files (world (document [apt_x]));
              locked := ∅; draws := 1 |});
    try reflexivity.
  - discriminate.
  - apply not_elem_of_empty.
Defined.

Lemma main_reads_and_writes_witness :
  main {| files := ∅; locked := ∅; draws := 0 |}
    = (Raise IOError, {| files := ∅; locked := ∅; draws := 0 |}) ∧
  files (main (world (document [apt_x]))).2 !! "misp_data.json"
    = files (world (document [apt_x])) !! "misp_data.json".
Proof.
  split.
  - destruct (main_reads_and_writes {| files := ∅; locked := ∅; draws := 0 |})
      as [Hmissing _].
    apply Hmissing. reflexivity.
  - destruct (main_reads_and_writes (world (document [apt_x])))
      as [_ Hframe].
    apply (Hframe (main (world (document [apt_x]))).1).
    + by destruct (main (world (document [apt_x]))).
    + discriminate.
Defined.

Lemma actor_built_witness :
  create_threat_actor numbered = Ok (Some numbered_actor).
Proof.
  exact (actor_built
           [("uuid", JStr uuid_z); ("value", JInt 5);
            ("meta", JObj [("synonyms", JArr [JInt 5; JStr "x"])])]
           [("synonyms", JArr [JInt 5; JStr "x"])]
           (JStr uuid_z) (JInt 5) [JInt 5; JStr "x"] [] 50
           eq_refl eq_refl eq_refl eq_refl eq_refl eq_refl).
Defined.
